(** * College attendance client: attendance-window predicates, bulk
      submission and lesson-form validation

    A shallow embedding of the page components of the attendance client
    (student dashboard, student lessons page, teacher bulk-attendance page,
    teacher create-lesson page) together with the properties of their
    eligibility predicates, their request sequences and their form schema. *)

From Stdlib Require Import ZArith Bool Lia.
From stdpp Require Import base option list strings pretty gmap sorting.

#[local] Set Warnings "-register-all".

Local Open Scope Z_scope.

(* ===================================================================== *)
(** ** JavaScript values used by the pages *)
(* ===================================================================== *)

Module Js.

(** [x || d] on an optional number: [undefined], [null] and [0] are
    falsy, every other integer is kept. *)
Definition orDefault (x : option Z) (d : Z) : Z :=
  match x with
  | Some v => if v =? 0 then d else v
  | None => d
  end.

(** [s || d] on a string: the empty string is falsy. *)
Definition strOrDefault (s : option string) (d : string) : string :=
  match s with
  | Some v => if String.eqb v "" then d else v
  | None => d
  end.

(** Truthiness of an optional number ([!!x]). *)
Definition truthy (x : option Z) : bool :=
  match x with
  | Some v => negb (v =? 0)
  | None => false
  end.

(** The remainder operator [%]: the sign follows the dividend. *)
Definition rem (a b : Z) : Z := Z.rem a b.

(** The UTF-16 code units one byte of a UTF-8 encoded string stands for:
    one for an ASCII byte and for the lead byte of a two- or three-byte
    sequence, two for the lead byte of a four-byte sequence (a code point
    outside of the basic plane, i.e. a surrogate pair), none for a
    continuation byte. *)
Definition utf16Units (c : Ascii.ascii) : nat :=
  let b := Ascii.N_of_ascii c in
  if (b <? 128)%N then 1%nat
  else if (b <? 192)%N then 0%nat
  else if (b <? 240)%N then 1%nat
  else 2%nat.

(** [s.length]: strings hold the UTF-8 encoding of the JavaScript string,
    and [length] counts UTF-16 code units. *)
Fixpoint utf16Length (s : string) : nat :=
  match s with
  | EmptyString => 0%nat
  | String c rest => (utf16Units c + utf16Length rest)%nat
  end.

End Js.

(* ===================================================================== *)
(** ** Dates *)
(* ===================================================================== *)

(** A [Date] is represented by its local wall-clock time in milliseconds
    since 1970-01-01T00:00 local time (a Thursday).  The UTC offset is taken
    to be constant, so differences of [getTime()] are differences of these
    values. *)
Module JsDate.

Definition Date := Z.

Definition msPerMinute : Z := 60000.
Definition msPerHour : Z := 3600000.
Definition msPerDay : Z := 86400000.

Definition getTime (d : Date) : Z := d.

(** Whole local days since the epoch day. *)
Definition dayNumber (d : Date) : Z := d / msPerDay.

(** 0-6 for Sunday-Saturday. *)
Definition getDay (d : Date) : Z := (dayNumber d + 4) mod 7.

Definition getHours (d : Date) : Z := (d / msPerHour) mod 24.

Definition getMinutes (d : Date) : Z := (d / msPerMinute) mod 60.

(** Milliseconds elapsed since local midnight. *)
Definition msOfDay (d : Date) : Z := d mod msPerDay.

(** [d.setDate(d.getDate() + n)]: the calendar day moves by [n] days and
    the time of day is kept (day-of-month overflow rolls into the
    following month). *)
Definition addDays (d : Date) (n : Z) : Date := d + n * msPerDay.

(** [d.setHours(0, 0, 0, 0)] *)
Definition clearTime (d : Date) : Date := d - msOfDay d.

(** The result of [new Date(value)] for a serialized timestamp. *)
Inductive Parsed :=
| ValidDate (d : Date)
| InvalidDate.

End JsDate.

Import JsDate.

(* ===================================================================== *)
(** ** Lessons and attendance records *)
(* ===================================================================== *)

Inductive Status := present | absent.

Record AttendanceRecord := {
  ar_lessonId : Z;
  ar_studentId : Z;
  ar_status : Status;
  markedAtTime : option string
}.

(** The fields of a lesson row that the pages read.  Optional fields are
    [None] when the property is missing (or [null]) in the JSON. *)
Record Lesson := {
  id : Z;
  dayOfWeek : Z;
  startTimeMinutes : Z;
  durationMinutes : Z;
  attendanceWindowMinutes : option Z;
  createdAt : option Parsed;
  attendance : option AttendanceRecord
}.

(** [now.getHours() * 60 + now.getMinutes()] *)
Definition currentMinutesOf (now : Date) : Z :=
  getHours now * 60 + getMinutes now.

(* ===================================================================== *)
(** ** Requests, responses and the effects of the page handlers *)
(* ===================================================================== *)

Module Http.

Inductive Json :=
| JNull
| JBool (b : bool)
| JNum (z : Z)
| JStr (s : string)
| JObj (fields : list (string * Json)).

(** The result of an awaited promise: fulfilled with a value, or rejected
    with an [Error] carrying a message. *)
Inductive Outcome (A : Type) :=
| Returned (a : A)
| Threw (msg : string).
Arguments Returned {A} a.
Arguments Threw {A} msg.

Record Request := {
  method : string;
  url : string;
  body : Json
}.

(** [json] is what [response.json()] settles to. *)
Record Response := {
  ok : bool;
  json : Outcome Json
}.

Inductive Variant := VDefault | VDestructive.

Record Toast := {
  title : string;
  description : string;
  variant : Variant
}.

Record QueryKey := {
  path : string;
  keyArg : option Z
}.

(** Everything a handler does that is visible outside of it, in program
    order. *)
Inductive Event :=
| EvSetState (name : string) (value : Json)
| EvMutate (variables : Json)
| EvRequest (r : Request)
| EvSettled (r : Outcome Response)
| EvSleep (ms : Z)
| EvInvalidate (key : QueryKey)
| EvRefetch
| EvToast (t : Toast)
| EvNavigate (to : string)
| EvConsoleError (msg : string).

(** [object[key]] on a parsed JSON value. *)
Fixpoint lookupField (key : string) (fields : list (string * Json)) : option Json :=
  match fields with
  | [] => None
  | (k, v) :: rest => if String.eqb k key then Some v else lookupField key rest
  end.

(** The message of [new Error(error.message || fallback)]. *)
Definition messageOr (error : Json) (fallback : string) : string :=
  match error with
  | JObj fields =>
      match lookupField "message" fields with
      | Some (JStr s) => if String.eqb s "" then fallback else s
      | Some (JNum z) => if z =? 0 then fallback else pretty z
      | Some (JBool true) => "true"
      | Some (JObj _) => "[object Object]"
      | _ => fallback
      end
  | _ => fallback
  end.

Section Effects.

(** The network and the server behind it: [serve] answers a request
    from the current server state.  [apiRequest] of [@/lib/queryClient]
    and the browser's [fetch] both settle to its answer. *)
Variable NetState : Type.
Variable serve : NetState -> Request -> NetState * Outcome Response.

Record World := {
  net : NetState;
  trace : list Event
}.

Definition M (A : Type) : Type := World -> Outcome A * World.

Definition ret {A} (a : A) : M A := fun w => (Returned a, w).

Definition bind {A B} (m : M A) (k : A -> M B) : M B :=
  fun w =>
    match m w with
    | (Returned a, w') => k a w'
    | (Threw msg, w') => (Threw msg, w')
    end.

Definition throw {A} (msg : string) : M A := fun w => (Threw msg, w).

(** [try { m } catch (error) { handler(error) }] *)
Definition tryCatch {A} (m : M A) (handler : string -> M A) : M A :=
  fun w =>
    match m w with
    | (Returned a, w') => (Returned a, w')
    | (Threw msg, w') => handler msg w'
    end.

(** [try { m } finally { cleanup }] *)
Definition tryFinally {A} (m : M A) (cleanup : M unit) : M A :=
  fun w =>
    match m w with
    | (r, w') =>
        match cleanup w' with
        | (Returned _, w'') => (r, w'')
        | (Threw msg, w'') => (Threw msg, w'')
        end
    end.

Definition emit (e : Event) : M unit :=
  fun w => (Returned tt, {| net := net w; trace := trace w ++ [e] |}).

(** An awaited request: it is sent, and the handler resumes only when
    the promise has settled. *)
Definition request (r : Request) : M Response :=
  fun w =>
    let '(n', res) := serve (net w) r in
    let w' := {| net := n'; trace := trace w ++ [EvRequest r; EvSettled res] |} in
    match res with
    | Returned resp => (Returned resp, w')
    | Threw msg => (Threw msg, w')
    end.

Definition apiRequest (method url : string) (data : Json) : M Response :=
  request {| method := method; url := url; body := data |}.

Definition fetch (url method : string) (data : Json) : M Response :=
  request {| method := method; url := url; body := data |}.

(** [await response.json()] *)
Definition responseJson (response : Response) : M Json :=
  match json response with
  | Returned j => ret j
  | Threw msg => throw msg
  end.

(** [await new Promise(resolve => setTimeout(resolve, ms))] *)
Definition sleep (ms : Z) : M unit := emit (EvSleep ms).

Definition toast (t : Toast) : M unit := emit (EvToast t).

Definition consoleError (msg : string) : M unit := emit (EvConsoleError msg).

Definition invalidateQueries (key : QueryKey) : M unit := emit (EvInvalidate key).

(** [mutation.mutateAsync(variables)]: the mutation function runs, then
    [onSuccess]; a rejection of either runs [onError] and is passed on
    to the caller. *)
Definition mutateAsync {A} (variables : Json) (mutationFn : M A)
    (onSuccess : M unit) (onError : string -> M unit) : M A :=
  bind (emit (EvMutate variables)) (fun _ =>
  tryCatch
    (bind mutationFn (fun data => bind onSuccess (fun _ => ret data)))
    (fun msg => bind (onError msg) (fun _ => throw msg))).

(** [mutation.mutate(variables)]: as [mutateAsync], with the rejection
    swallowed. *)
Definition mutate {A} (variables : Json) (mutationFn : M A)
    (onSuccess : M unit) (onError : string -> M unit) : M unit :=
  tryCatch
    (bind (mutateAsync variables mutationFn onSuccess onError) (fun _ => ret tt))
    (fun _ => ret tt).

End Effects.

Arguments net {NetState} _.
Arguments trace {NetState} _.
Arguments Build_World {NetState} _ _.
Arguments ret {NetState A} _ _.
Arguments bind {NetState A B} _ _ _.
Arguments throw {NetState A} _ _.
Arguments tryCatch {NetState A} _ _ _.
Arguments tryFinally {NetState A} _ _ _.
Arguments emit {NetState} _ _.
Arguments responseJson {NetState} _ _.
Arguments sleep {NetState} _ _.
Arguments toast {NetState} _ _.
Arguments consoleError {NetState} _ _.
Arguments invalidateQueries {NetState} _ _.

(** The requests of a trace, in the order they were sent. *)
Definition requestsOf (t : list Event) : list Request :=
  omap (fun e => match e with EvRequest r => Some r | _ => None end) t.

Definition sleepsOf (t : list Event) : list Z :=
  omap (fun e => match e with EvSleep ms => Some ms | _ => None end) t.

Definition mutationsOf (t : list Event) : list Json :=
  omap (fun e => match e with EvMutate v => Some v | _ => None end) t.

Definition toastsOf (t : list Event) : list Toast :=
  omap (fun e => match e with EvToast x => Some x | _ => None end) t.

(** Number of requests sent and not yet settled after the events of [t],
    starting from [n]. *)
Fixpoint inFlight (n : Z) (t : list Event) : Z :=
  match t with
  | [] => n
  | EvRequest _ :: rest => inFlight (n + 1) rest
  | EvSettled _ :: rest => inFlight (n - 1) rest
  | _ :: rest => inFlight n rest
  end.

Definition settledOf (t : list Event) : list (Outcome Response) :=
  omap (fun e => match e with EvSettled r => Some r | _ => None end) t.

(** A settled request counts as successful when the response is [ok] and
    its body parses. *)
Definition succeeded (r : Outcome Response) : bool :=
  match r with
  | Returned resp =>
      ok resp && match json resp with Returned _ => true | Threw _ => false end
  | Threw _ => false
  end.

(** Starting with [n] requests in flight, the count stays within 0..1
    before and after every event of [t]. *)
Fixpoint neverOverlaps (n : Z) (t : list Event) : bool :=
  (0 <=? n) && (n <=? 1)
  && match t with
     | [] => true
     | e :: rest => neverOverlaps (inFlight n [e]) rest
     end.

(** The outcome and the events of a handler started on a fresh trace with
    the server in state [n]. *)
Definition outcomeOf {NetState A} (m : M NetState A) (n : NetState) : Outcome A :=
  fst (m {| net := n; trace := [] |}).

Definition eventsOf {NetState A} (m : M NetState A) (n : NetState) : list Event :=
  trace (snd (m {| net := n; trace := [] |})).


End Http.

Notation "x <- m ;; k" := (Http.bind m (fun x => k))
  (at level 100, m at next level, right associativity).
Notation "m ;;; k" := (Http.bind m (fun _ => k))
  (at level 100, right associativity).

Import Http.

(* ===================================================================== *)
(** ** Student dashboard *)
(* ===================================================================== *)

Module StudentDashboard.

Definition hasTimePassed (now : Date) (timeMinutes : Z) : bool :=
  let currentMinutes := currentMinutesOf now in
  timeMinutes <? currentMinutes.

(** [lesson.createdAt && (now - new Date(lesson.createdAt) < 24h)],
    returning the creation time when the test succeeds.  A missing
    timestamp is falsy and an unparsable one makes the comparison with
    [NaN] false. *)
Definition instantCreation (now : Date) (lesson : Lesson) : option Date :=
  match createdAt lesson with
  | Some (ValidDate c) =>
      if getTime now - getTime c <? 24 * 60 * 60 * 1000 then Some c else None
  | Some InvalidDate => None
  | None => None
  end.

Definition isInstantLesson (now : Date) (lesson : Lesson) : bool :=
  match instantCreation now lesson with Some _ => true | None => false end.

(** The calls to [new Date()] inside one evaluation are taken at the same
    instant [now].  The local [startTimeDate] of the instant branch is
    never read and is left out. *)
Definition isAttendanceWindowOpen (now : Date) (lesson : option Lesson) : bool :=
  match lesson with
  | None => false
  | Some lesson =>
      let currentMinutes := currentMinutesOf now in
      let currentDay := getDay now in
      if negb (dayOfWeek lesson =? currentDay) then false
      else
        match instantCreation now lesson with
        | Some lessonCreationTime =>
            let endFromStartTime :=
              startTimeMinutes lesson
              + Js.orDefault (attendanceWindowMinutes lesson) 30 in
            let creationTimeMinutes :=
              getHours lessonCreationTime * 60 + getMinutes lessonCreationTime in
            let endFromCreationTime :=
              creationTimeMinutes
              + Js.orDefault (attendanceWindowMinutes lesson) 30 in
            let attendanceWindowEndMinutes :=
              Z.max endFromStartTime endFromCreationTime in
            currentMinutes <=? attendanceWindowEndMinutes
        | None =>
            let isAfterStart := startTimeMinutes lesson <=? currentMinutes in
            let attendanceWindowEndMinutes :=
              startTimeMinutes lesson
              + Js.orDefault (attendanceWindowMinutes lesson) 30 in
            let isBeforeWindowEnd := currentMinutes <=? attendanceWindowEndMinutes in
            isAfterStart && isBeforeWindowEnd
        end
  end.

(** [attendanceRecords.some(r => r.lessonId === lesson.id &&
    r.studentId === user?.id)] *)
Definition hasMarkedAttendance
    (attendanceRecords : list AttendanceRecord) (userId : option Z)
    (lesson : option Lesson) : bool :=
  match lesson with
  | None => false
  | Some lesson =>
      if (length attendanceRecords =? 0)%nat then false
      else
        existsb
          (fun record =>
             (ar_lessonId record =? id lesson)
             && match userId with
                | Some u => ar_studentId record =? u
                | None => false
                end)
          attendanceRecords
  end.

(** The click handler of a lesson row selects the lesson (which opens the
    marking dialog) only under this guard. *)
Definition rowSelectsLesson
    (now : Date) (attendanceRecords : list AttendanceRecord)
    (userId : option Z) (lesson : Lesson) : bool :=
  isAttendanceWindowOpen now (Some lesson)
  && negb (hasMarkedAttendance attendanceRecords userId (Some lesson)).

End StudentDashboard.

(* ===================================================================== *)
(** ** Student lessons page *)
(* ===================================================================== *)

Module StudentLessons.

Definition hasTimePassed (now : Date) (timeMinutes : Z) : bool :=
  let currentMinutes := currentMinutesOf now in
  timeMinutes <? currentMinutes.

Definition isLessonInFuture (now : Date) (lesson : Lesson) : bool :=
  let currentMinutes := currentMinutesOf now in
  let lessonDay := dayOfWeek lesson in
  let today := getDay now in
  if today <? lessonDay then true
  else if (lessonDay =? today) && (currentMinutes <? startTimeMinutes lesson)
       then true
       else false.

Definition isLessonInPast (now : Date) (lesson : Lesson) : bool :=
  let currentMinutes := currentMinutesOf now in
  let lessonDay := dayOfWeek lesson in
  let today := getDay now in
  if lessonDay <? today then true
  else if (lessonDay =? today)
          && (startTimeMinutes lesson + durationMinutes lesson <? currentMinutes)
       then true
       else false.

Definition canMarkAttendance (now : Date) (lesson : option Lesson) : bool :=
  match lesson with
  | None => false
  | Some lesson =>
      let currentMinutes := currentMinutesOf now in
      let currentDay := getDay now in
      if negb (dayOfWeek lesson =? currentDay) then false
      else
        let isStarted := startTimeMinutes lesson <=? currentMinutes in
        let attendanceWindowEndMinutes :=
          startTimeMinutes lesson
          + Js.orDefault (attendanceWindowMinutes lesson) 15 in
        let isBeforeWindowEnd := currentMinutes <=? attendanceWindowEndMinutes in
        let isNotMarked :=
          match attendance lesson with Some _ => false | None => true end in
        isStarted && isBeforeWindowEnd && isNotMarked
  end.

(** What the footer of a lesson card on the "Today" tab renders. *)
Inductive CardFooter :=
| MarkPresentButton
| AlreadyMarked
| Missed
| NotYetAvailable.

Definition cardFooter (now : Date) (lesson : Lesson) : CardFooter :=
  if canMarkAttendance now (Some lesson) then MarkPresentButton
  else
    match attendance lesson with
    | Some _ => AlreadyMarked
    | None =>
        if hasTimePassed now (startTimeMinutes lesson + durationMinutes lesson)
        then Missed
        else NotYetAvailable
    end.

Section Handlers.

Variable NetState : Type.
Variable serve : NetState -> Request -> NetState * Outcome Response.

(** [JSON.stringify] leaves out the properties whose value is
    [undefined]. *)
Definition userIdField (userId : option Z) : list (string * Json) :=
  match userId with
  | Some u => [("studentId", JNum u)]
  | None => []
  end.

(** The student can only ever submit the status ["present"]. *)
Definition markAttendance_mutationFn (userId : option Z) (lessonId : Z)
    : M NetState Json :=
  response <- fetch NetState serve "/api/attendance" "POST"
                (JObj ([("lessonId", JNum lessonId)]
                       ++ userIdField userId
                       ++ [("status", JStr "present")])) ;;
  if negb (ok response) then
    errorData <- responseJson response ;;
    throw (messageOr errorData "Failed to mark attendance")
  else responseJson response.

Definition markAttendance_onSuccess : M NetState unit :=
  toast {| title := "Attendance Marked";
           description := "Your attendance has been recorded successfully.";
           variant := VDefault |} ;;;
  emit (EvSetState "attendanceDialogOpen" (JBool false)) ;;;
  invalidateQueries {| path := "/api/lessons/today"; keyArg := None |} ;;;
  invalidateQueries {| path := "/api/lessons/student"; keyArg := None |}.

Definition markAttendance_onError (msg : string) : M NetState unit :=
  toast {| title := "Error"; description := msg; variant := VDestructive |}.

Definition handleMarkAttendance (userId : option Z)
    (selectedLesson : option Lesson) : M NetState unit :=
  match selectedLesson with
  | None => ret tt
  | Some selectedLesson =>
      mutate NetState
        (JObj [("lessonId", JNum (id selectedLesson)); ("status", JStr "present")])
        (markAttendance_mutationFn userId (id selectedLesson))
        markAttendance_onSuccess
        markAttendance_onError
  end.

End Handlers.

End StudentLessons.

(* ===================================================================== *)
(** ** Teacher bulk-attendance page *)
(* ===================================================================== *)

Module BulkAttendance.

(** The component state the handlers close over.  [attendanceData] is the
    object [{ [studentId: number]: "present" | "absent" }]; student ids are
    database serials, i.e. array-index-like keys. *)
Record PageState := {
  lessonId : option Z;
  forceAttendance : bool;
  attendanceData : gmap N Status
}.

Definition statusJson (s : Status) : Json :=
  match s with
  | present => JStr "present"
  | absent => JStr "absent"
  end.

(** [Object.keys(attendanceData)]: integer-like keys come out in ascending
    numeric order.  The round trip through the key string and [parseInt] is
    the identity on these keys. *)
Definition objectKeys (data : gmap N Status) : list N :=
  merge_sort N.le (elements (dom data)).

Definition toggleAttendance (st : PageState) (studentId : N) (status : Status)
    : PageState :=
  {| lessonId := lessonId st;
     forceAttendance := forceAttendance st;
     attendanceData := <[studentId := status]> (attendanceData st) |}.

(** [{ lessonId, studentId, status }], a property with value [undefined]
    being left out of the serialized body. *)
Definition attendanceBody (lessonId : option Z) (studentId : Z)
    (status : option Status) : Json :=
  JObj (match lessonId with Some l => [("lessonId", JNum l)] | None => [] end
        ++ [("studentId", JNum studentId)]
        ++ match status with Some s => [("status", statusJson s)] | None => [] end).

Definition mutationVariables (studentId : Z) (status : option Status) : Json :=
  JObj ([("studentId", JNum studentId)]
        ++ match status with Some s => [("status", statusJson s)] | None => [] end).

Definition attendanceUrl (forceAttendance : bool) : string :=
  if forceAttendance then "/api/attendance?force=true" else "/api/attendance".

Definition savedDescription (successful failed : Z) : string :=
  "Successfully marked " +:+ pretty successful +:+ " students"
  +:+ (if 0 <? failed then ", failed for " +:+ pretty failed +:+ " students" else "").

Definition savedToast (successful failed : Z) : Toast :=
  {| title := "Attendance Saved";
     description := savedDescription successful failed;
     variant := if (0 <? successful) && (failed =? 0) then VDefault else VDestructive |}.

Section Handlers.

Variable NetState : Type.
Variable serve : NetState -> Request -> NetState * Outcome Response.

Definition markAttendance_mutationFn (st : PageState) (studentId : Z)
    (status : option Status) : M NetState Json :=
  if negb (Js.truthy (lessonId st)) then throw "No lesson selected"
  else
    let url := attendanceUrl (forceAttendance st) in
    tryCatch
      (response <- apiRequest NetState serve "POST" url
                     (attendanceBody (lessonId st) studentId status) ;;
       if negb (ok response) then
         error <- responseJson response ;;
         throw (messageOr error "Failed to mark attendance")
       else responseJson response)
      (fun msg =>
         consoleError "Error marking attendance:" ;;;
         throw (Js.strOrDefault (Some msg) "Failed to mark attendance")).

Definition markAttendance_onSuccess (st : PageState) : M NetState unit :=
  invalidateQueries {| path := "/api/attendance"; keyArg := lessonId st |}.

Definition markAttendance_onError (msg : string) : M NetState unit :=
  toast {| title := "Error"; description := msg; variant := VDestructive |}.

Definition markAttendanceMutation_mutateAsync (st : PageState)
    (studentId : Z) (status : option Status) : M NetState Json :=
  mutateAsync NetState (mutationVariables studentId status)
    (markAttendance_mutationFn st studentId status)
    (markAttendance_onSuccess st)
    markAttendance_onError.

(** The body of the [for (const studentId of studentIds)] loop, with
    its two counters. *)
Definition saveStudent (st : PageState) (studentId : N)
    (successful failed : Z) : M NetState (Z * Z) :=
  tryCatch
    (markAttendanceMutation_mutateAsync st (Z.of_N studentId)
       (attendanceData st !! studentId) ;;;
     sleep 100 ;;;
     ret (successful + 1, failed))
    (fun _ =>
       consoleError ("Failed to mark attendance for student "
                     +:+ pretty studentId +:+ ":") ;;;
       ret (successful, failed + 1)).

Fixpoint saveLoop (st : PageState) (studentIds : list N)
    (successful failed : Z) : M NetState (Z * Z) :=
  match studentIds with
  | [] => ret (successful, failed)
  | studentId :: rest =>
      counters <- saveStudent st studentId successful failed ;;
      saveLoop st rest (fst counters) (snd counters)
  end.

Definition saveAllAttendance (st : PageState) : M NetState unit :=
  tryFinally
    (tryCatch
       (emit (EvSetState "isSaving" (JBool true)) ;;;
        counters <- saveLoop st (objectKeys (attendanceData st)) 0 0 ;;
        invalidateQueries {| path := "/api/attendance"; keyArg := lessonId st |} ;;;
        emit EvRefetch ;;;
        toast (savedToast (fst counters) (snd counters)))
       (fun _ =>
          consoleError "Error saving attendance:" ;;;
          toast {| title := "Error";
                   description := "Failed to save attendance records";
                   variant := VDestructive |}))
    (emit (EvSetState "isSaving" (JBool false))).

End Handlers.

(** The request sent for student [k]. *)
Definition attendanceRequest (st : PageState) (k : N) : Request :=
  {| method := "POST";
     url := attendanceUrl (forceAttendance st);
     body := attendanceBody (lessonId st) (Z.of_N k) (attendanceData st !! k) |}.

Definition calculateLessonDate (now : Date) (lesson : option Lesson) : option Date :=
  match lesson with
  | None => None
  | Some lesson =>
      let currentDayOfWeek := getDay now in
      let daysUntilNext := Js.rem (dayOfWeek lesson - currentDayOfWeek + 7) 7 in
      let nextDate := addDays now daysUntilNext in
      Some (clearTime nextDate)
  end.

End BulkAttendance.

(* ===================================================================== *)
(** ** Teacher create-lesson page *)
(* ===================================================================== *)

Module CreateLesson.

(** The values a form field can hold. *)
Inductive JsVal :=
| VUndefined
| VNull
| VBool (b : bool)
| VNum (z : Z)
| VNaN
| VStr (s : string).

Inductive JsNumber :=
| NaN
| Num (z : Z).

(** The raw values of the form, as the resolver receives them. *)
Record FormValues := {
  in_classId : JsVal;
  in_subject : JsVal;
  in_dayOfWeek : JsVal;
  in_startTimeMinutes : JsVal;
  in_durationMinutes : JsVal;
  in_location : JsVal;
  in_attendanceWindowMinutes : JsVal;
  in_isActive : JsVal
}.

(** [z.infer<typeof formSchema>] *)
Record LessonData := {
  classId : Z;
  subject : string;
  dayOfWeek : Z;
  startTimeMinutes : Z;
  durationMinutes : Z;
  location : option string;
  attendanceWindowMinutes : Z;
  isActive : bool
}.

Definition lessonJson (data : LessonData) : Json :=
  JObj ([("classId", JNum (classId data));
         ("subject", JStr (subject data));
         ("dayOfWeek", JNum (dayOfWeek data));
         ("startTimeMinutes", JNum (startTimeMinutes data));
         ("durationMinutes", JNum (durationMinutes data))]
        ++ match location data with Some l => [("location", JStr l)] | None => [] end
        ++ [("attendanceWindowMinutes", JNum (attendanceWindowMinutes data));
            ("isActive", JBool (isActive data))]).

Section Schema.

(** The language's conversion of a string to a number (the numeric value
    of a numeric literal, [0] for a blank string, [NaN] otherwise). *)
Variable stringToNumber : string -> JsNumber.

(** [Number(v)] *)
Definition toNumber (v : JsVal) : JsNumber :=
  match v with
  | VUndefined => NaN
  | VNull => Num 0
  | VBool b => Num (if b then 1 else 0)
  | VNum z => Num z
  | VNaN => NaN
  | VStr s => stringToNumber s
  end.

(** [z.coerce.number()]: [NaN] is not a number for the schema. *)
Definition coerceNumber (v : JsVal) : option Z :=
  match toNumber v with
  | Num z => Some z
  | NaN => None
  end.

(** [z.coerce.number().min(lo).max(hi)] *)
Definition coerceNumberMinMax (lo hi : Z) (v : JsVal) : option Z :=
  match coerceNumber v with
  | Some z => if (lo <=? z) && (z <=? hi) then Some z else None
  | None => None
  end.

(** [schema.default(d)]: an [undefined] input is replaced by [d] before
    the inner schema runs. *)
Definition withDefault {A} (d : JsVal) (inner : JsVal -> option A)
    (v : JsVal) : option A :=
  match v with
  | VUndefined => inner d
  | _ => inner v
  end.

(** [z.string().min(n)]: the schema compares [n] with the [length] of the
    string, its number of UTF-16 code units. *)
Definition stringMin (n : nat) (v : JsVal) : option string :=
  match v with
  | VStr s => if (n <=? Js.utf16Length s)%nat then Some s else None
  | _ => None
  end.

(** [z.string().optional()] *)
Definition stringOptional (v : JsVal) : option (option string) :=
  match v with
  | VUndefined => Some None
  | VStr s => Some (Some s)
  | _ => None
  end.

(** [z.boolean()] *)
Definition boolean (v : JsVal) : option bool :=
  match v with
  | VBool b => Some b
  | _ => None
  end.

(** [formSchema.safeParse(values)]: [None] when some field has an
    issue. *)
Definition formSchema (values : FormValues) : option LessonData :=
  match coerceNumber (in_classId values),
        stringMin 2 (in_subject values),
        coerceNumberMinMax 0 6 (in_dayOfWeek values),
        coerceNumberMinMax 0 (24 * 60 - 1) (in_startTimeMinutes values),
        coerceNumberMinMax 30 240 (in_durationMinutes values),
        stringOptional (in_location values),
        withDefault (VNum 30) (coerceNumberMinMax 5 60)
          (in_attendanceWindowMinutes values),
        withDefault (VBool true) boolean (in_isActive values)
  with
  | Some c, Some s, Some d, Some st, Some du, Some l, Some w, Some a =>
      Some {| classId := c; subject := s; dayOfWeek := d;
              startTimeMinutes := st; durationMinutes := du;
              location := l; attendanceWindowMinutes := w; isActive := a |}
  | _, _, _, _, _, _, _, _ => None
  end.

Variable NetState : Type.
Variable serve : NetState -> Request -> NetState * Outcome Response.

Definition createLesson_mutationFn (data : LessonData) : M NetState Json :=
  response <- apiRequest NetState serve "POST" "/api/lessons" (lessonJson data) ;;
  if negb (ok response) then
    error <- responseJson response ;;
    throw (messageOr error "Failed to create lesson")
  else responseJson response.

Definition createLesson_onSuccess : M NetState unit :=
  toast {| title := "Lesson created";
           description := "The lesson has been created successfully.";
           variant := VDefault |} ;;;
  invalidateQueries {| path := "/api/lessons"; keyArg := None |} ;;;
  invalidateQueries {| path := "/api/lessons/today"; keyArg := None |} ;;;
  emit (EvNavigate "/teacher/lessons").

Definition createLesson_onError (msg : string) : M NetState unit :=
  toast {| title := "Error creating lesson"; description := msg;
           variant := VDestructive |}.

Definition onSubmit (data : LessonData) : M NetState unit :=
  mutate NetState (lessonJson data)
    (createLesson_mutationFn data)
    createLesson_onSuccess
    createLesson_onError.

(** [form.handleSubmit(onSubmit)] with the schema as resolver:
    [onSubmit] is called with the parsed values, and only when the
    schema reports no issue. *)
Definition handleSubmit (values : FormValues) : M NetState unit :=
  match formSchema values with
  | Some data => onSubmit data
  | None => ret tt
  end.

End Schema.

(** A conversion for strings of decimal digits, used to run the schema on
    concrete inputs. *)
Fixpoint digitsValue (acc : Z) (s : string) : JsNumber :=
  match s with
  | EmptyString => Num acc
  | String c rest =>
      let n := Z.of_nat (Ascii.nat_of_ascii c) in
      if (48 <=? n) && (n <=? 57) then digitsValue (acc * 10 + (n - 48)) rest
      else NaN
  end.

Definition decimalToNumber (s : string) : JsNumber := digitsValue 0 s.

End CreateLesson.

(* ===================================================================== *)
(** ** Time and day labels shared by the pages *)
(* ===================================================================== *)

Module TimeFormat.

(** The first [n] characters of [pad] repeated, [rest] being what is left
    of the current copy. *)
Fixpoint fill (n : nat) (pad rest : string) : string :=
  match n with
  | O => ""
  | S n' =>
      match rest with
      | String c r => String c (fill n' pad r)
      | EmptyString =>
          match pad with
          | String c r => String c (fill n' pad r)
          | EmptyString => ""
          end
      end
  end.

(** [s.padStart(targetLength, padString)] *)
Definition padStart (targetLength : nat) (padString : string) (s : string) : string :=
  fill (targetLength - String.length s) padString padString +:+ s.

(** [formatTimeFromMinutes] of the student dashboard, the student lessons
    page and the bulk-attendance page (three identical copies).
    [Math.floor(minutes / 60)] is the floor division and [%] the remainder
    that follows the sign of [minutes]. *)
Definition formatTimeFromMinutes (minutes : Z) : string :=
  let hours := minutes / 60 in
  let mins := Js.rem minutes 60 in
  let period := if 12 <=? hours then "PM" else "AM" in
  let displayHours := Js.orDefault (Some (Js.rem hours 12)) 12 in
  pretty displayHours +:+ ":" +:+ padStart 2 "0" (pretty mins) +:+ " " +:+ period.

(** [formatMinutes] of the create-lesson page. *)
Definition formatMinutes (minutes : Z) : string :=
  let hours := minutes / 60 in
  let mins := Js.rem minutes 60 in
  pretty hours +:+ ":" +:+ padStart 2 "0" (pretty mins).

Definition days : list string :=
  ["Sunday"; "Monday"; "Tuesday"; "Wednesday"; "Thursday"; "Friday"; "Saturday"].

(** [array[i]] for an integer index: [undefined] outside of the array. *)
Definition arrayGet {A} (l : list A) (i : Z) : option A :=
  if i <? 0 then None else l !! Z.to_nat i.

(** [days[dayOfWeek] || ''] *)
Definition getDayOfWeekName (dayOfWeek : Z) : string :=
  Js.strOrDefault (arrayGet days dayOfWeek) "".

End TimeFormat.

(* ===================================================================== *)
(** ** Student lessons page: tabs, badges and the remaining time *)
(* ===================================================================== *)

Module StudentLessonsView.

Import StudentLessons.

(** [calculateEndTimeMinutes] *)
Definition calculateEndTimeMinutes (startTimeMinutes durationMinutes : Z) : Z :=
  startTimeMinutes + durationMinutes.

Definition getRemainingTime (now : Date) (lesson : option Lesson) : string :=
  match lesson with
  | None => "No lesson"
  | Some lesson =>
      let currentMinutes := currentMinutesOf now in
      let currentDay := getDay now in
      if negb (dayOfWeek lesson =? currentDay) then "Different day"
      else if currentMinutes <? startTimeMinutes lesson then "Not yet started"
      else
        let attendanceWindowEndMinutes :=
          startTimeMinutes lesson
          + Js.orDefault (attendanceWindowMinutes lesson) 15 in
        if attendanceWindowEndMinutes <? currentMinutes then "Window closed"
        else
          let remainingMinutes := attendanceWindowEndMinutes - currentMinutes in
          pretty remainingMinutes +:+ " minute"
          +:+ (if negb (remainingMinutes =? 1) then "s" else "")
          +:+ " remaining"
  end.

(** The comparator of the "Upcoming" tab. *)
Definition compareUpcoming (a b : Lesson) : Z :=
  if negb (dayOfWeek a =? dayOfWeek b) then dayOfWeek a - dayOfWeek b
  else startTimeMinutes a - startTimeMinutes b.

(** The comparator of the "Past" tab. *)
Definition comparePast (a b : Lesson) : Z :=
  if negb (dayOfWeek a =? dayOfWeek b) then dayOfWeek b - dayOfWeek a
  else startTimeMinutes b - startTimeMinutes a.

(** [a] may stay in front of [b] under the comparator [cmp]. *)
Definition inOrder (cmp : Lesson -> Lesson -> Z) (a b : Lesson) : Prop :=
  cmp a b <= 0.

#[global] Instance inOrder_dec cmp : RelDecision (inOrder cmp) :=
  fun a b => Z_le_dec (cmp a b) 0.

(** [array.sort(cmp)], as a merge sort. *)
Definition sortBy (cmp : Lesson -> Lesson -> Z) (l : list Lesson) : list Lesson :=
  merge_sort (inOrder cmp) l.

Definition upcomingLessons (now : Date) (allLessons : list Lesson) : list Lesson :=
  sortBy compareUpcoming (List.filter (isLessonInFuture now) allLessons).

Definition pastLessons (now : Date) (allLessons : list Lesson) : list Lesson :=
  sortBy comparePast (List.filter (isLessonInPast now) allLessons).

(** The badge in the header of a lesson card on the "Today" tab. *)
Inductive CardBadge :=
| BadgePresent
| BadgeAbsent
| BadgeMarkAttendance
| BadgeStartTime (label : string).

Definition cardBadge (now : Date) (lesson : Lesson) : CardBadge :=
  match attendance lesson with
  | Some _ => BadgePresent
  | None =>
      if hasTimePassed now (startTimeMinutes lesson + durationMinutes lesson)
      then BadgeAbsent
      else if canMarkAttendance now (Some lesson) then BadgeMarkAttendance
      else BadgeStartTime (TimeFormat.formatTimeFromMinutes (startTimeMinutes lesson))
  end.

End StudentLessonsView.

(* ===================================================================== *)
(** ** Student dashboard: lesson rows and the marking dialog *)
(* ===================================================================== *)

Module StudentDashboardView.

Import StudentDashboard.

(** What the right-hand side of a lesson row shows. *)
Inductive RowStatus :=
| AttendanceMarked
| MarkAttendanceButton
| AttendanceWindowClosed
| StartsAt (label : string).

Definition rowStatus (now : Date) (attendanceRecords : list AttendanceRecord)
    (userId : option Z) (lesson : Lesson) : RowStatus :=
  if hasMarkedAttendance attendanceRecords userId (Some lesson) then AttendanceMarked
  else if isAttendanceWindowOpen now (Some lesson) then MarkAttendanceButton
  else if hasTimePassed now (startTimeMinutes lesson + durationMinutes lesson)
       then AttendanceWindowClosed
       else StartsAt (TimeFormat.formatTimeFromMinutes (startTimeMinutes lesson)).

(** Truthiness of a parsed JSON value. *)
Definition jsonTruthy (v : Json) : bool :=
  match v with
  | JNull => false
  | JBool b => b
  | JNum z => negb (z =? 0)
  | JStr s => negb (String.eqb s "")
  | JObj _ => true
  end.

(** [errorData.message]: reading a property of [null] throws, a missing
    property and a property of a primitive are [undefined] (falsy, here
    [JNull]). *)
Definition readMessage (errorData : Json) : Outcome Json :=
  match errorData with
  | JNull => Threw "Cannot read properties of null (reading 'message')"
  | JObj fields =>
      match lookupField "message" fields with
      | Some v => Returned v
      | None => Returned JNull
      end
  | _ => Returned JNull
  end.

(** [value || fallback], kept as the value it is. *)
Definition valueOr (value : Json) (fallback : string) : Json :=
  if jsonTruthy value then value else JStr fallback.

(** A callback handed to [setTimeout]: its delay and the state updates it
    performs when it fires. *)
Record Timer := {
  delay : Z;
  callback : list Event
}.

Section Handlers.

Variable NetState : Type.
Variable serve : NetState -> Request -> NetState * Outcome Response.

(** [markAttendance(lessonId, "present")]; the result is the list of timers
    the call leaves pending. *)
Definition markAttendance (userId : option Z) (lessonId : Z)
    : M NetState (list Timer) :=
  tryCatch
    (emit (EvSetState "attendanceError" (JStr "")) ;;;
     response <- fetch NetState serve "/api/attendance" "POST"
                   (JObj ([("lessonId", JNum lessonId)]
                          ++ StudentLessons.userIdField userId
                          ++ [("status", JStr "present")])) ;;
     if ok response then
       emit (EvSetState "attendanceMarked" (JBool true)) ;;;
       ret [{| delay := 2000;
               callback := [EvSetState "selectedLesson" JNull;
                            EvSetState "attendanceMarked" (JBool false)] |}]
     else
       errorData <- responseJson response ;;
       message <- (match readMessage errorData with
                   | Returned v => ret v
                   | Threw msg => throw msg
                   end) ;;
       emit (EvSetState "attendanceError"
               (valueOr message "Failed to mark attendance")) ;;;
       ret [])
    (fun _ =>
       emit (EvSetState "attendanceError"
               (JStr "An error occurred while marking attendance")) ;;;
       ret []).

(** The "Mark as Present" button of the dialog:
    [selectedLesson && markAttendance(selectedLesson.id, "present")]. *)
Definition confirmAttendance (userId : option Z) (selectedLesson : option Lesson)
    : M NetState (list Timer) :=
  match selectedLesson with
  | Some selectedLesson => markAttendance userId (id selectedLesson)
  | None => ret []
  end.

End Handlers.

(** The request the dialog sends for a lesson. *)
Definition selfMarkRequest (userId : option Z) (lessonId : Z) : Request :=
  {| method := "POST"; url := "/api/attendance";
     body := JObj ([("lessonId", JNum lessonId)]
                   ++ StudentLessons.userIdField userId
                   ++ [("status", JStr "present")]) |}.

(** The state updates of a trace, in order. *)
Definition stateUpdatesOf (t : list Event) : list (string * Json) :=
  omap (fun e => match e with EvSetState n v => Some (n, v) | _ => None end) t.

End StudentDashboardView.

(* ===================================================================== *)
(** ** Bulk attendance: loading, counting and the lesson date *)
(* ===================================================================== *)

Module BulkAttendanceView.

Import BulkAttendance.

Record Student := {
  studentId : N;
  fullName : string;
  username : string
}.

(** [attendanceRecords.find(r => r.studentId === student.id)] *)
Definition findRecord (attendanceRecords : list AttendanceRecord) (student : Student)
    : option AttendanceRecord :=
  List.find (fun r => ar_studentId r =? Z.of_N (studentId student)) attendanceRecords.

(** The object built by the [students.forEach] of the loading effect. *)
Definition initialData (attendanceRecords : list AttendanceRecord)
    (students : list Student) : gmap N Status :=
  foldl
    (fun initialData student =>
       match findRecord attendanceRecords student with
       | Some record => <[studentId student := ar_status record]> initialData
       | None => initialData
       end)
    ∅ students.

(** The effect that initializes [attendanceData] from the existing records;
    it does nothing until both lists are loaded and non-empty. *)
Definition loadAttendance (st : PageState) (attendanceRecords : list AttendanceRecord)
    (students : list Student) : PageState :=
  if (0 <? length attendanceRecords)%nat && (0 <? length students)%nat
  then {| lessonId := lessonId st;
          forceAttendance := forceAttendance st;
          attendanceData := initialData attendanceRecords students |}
  else st.


(** [Object.values(attendanceData)], in key order. *)
Definition objectValues (data : gmap N Status) : list Status :=
  omap (fun k => data !! k) (objectKeys data).

Definition isPresent (status : Status) : bool :=
  match status with present => true | absent => false end.

Definition isAbsent (status : Status) : bool :=
  match status with absent => true | present => false end.

Definition markedCount (st : PageState) : Z :=
  Z.of_nat (length (objectKeys (attendanceData st))).

Definition presentCount (st : PageState) : Z :=
  Z.of_nat (length (List.filter isPresent (objectValues (attendanceData st)))).

Definition absentCount (st : PageState) : Z :=
  Z.of_nat (length (List.filter isAbsent (objectValues (attendanceData st)))).

Definition unmarkedCount (st : PageState) (students : list Student) : Z :=
  Z.of_nat (length students) - markedCount st.

(** Every toast shown in the trace has a text. *)
Definition toastsHaveText (t : list Event) : Prop :=
  Forall (fun shown => description shown <> "") (toastsOf t).

(** The status column of a student's row: [attendanceData[student.id]]. *)
Definition rowStatus (st : PageState) (student : Student) : option Status :=
  attendanceData st !! studentId student.

(** [new Date().toDateString() === lessonDate.toDateString()]: the two dates
    fall on the same calendar day. *)
Definition isLessonToday (now : Date) (lesson : option Lesson) : bool :=
  match calculateLessonDate now lesson with
  | Some lessonDate => dayNumber now =? dayNumber lessonDate
  | None => false
  end.

End BulkAttendanceView.

(* ===================================================================== *)
(** ** Create lesson: the controls of the form *)
(* ===================================================================== *)

Module CreateLessonControls.

Import CreateLesson.

(** The two defaults read from [/api/system-settings]. *)
Record Settings := {
  defaultLessonDuration : option Z;
  defaultAttendanceWindow : option Z
}.

(** [settings?.field] *)
Definition setting (settings : option Settings) (field : Settings -> option Z)
    : option Z :=
  match settings with
  | Some s => field s
  | None => None
  end.

(** The [defaultValues] of the form; [classId] has none. *)
Definition defaultValues (settings : option Settings) : FormValues :=
  {| in_classId := VUndefined;
     in_subject := VStr "";
     in_dayOfWeek := VNum 1;
     in_startTimeMinutes := VNum (8 * 60);
     in_durationMinutes :=
       VNum (Js.orDefault (setting settings defaultLessonDuration) 60);
     in_location := VStr "";
     in_attendanceWindowMinutes :=
       VNum (Js.orDefault (setting settings defaultAttendanceWindow) 30);
     in_isActive := VBool true |}.

(** [Array.from({ length: 24 }, (_, i) => i)] *)
Definition hourOptions : list Z := seqZ 0 24.

Definition minuteOptions : list Z := [0; 15; 30; 45].

(** The option values of the day select: the indices of [dayNames]. *)
Definition dayOptions : list Z := seqZ 0 (Z.of_nat (length TimeFormat.days)).

(** [updateStartTimeMinutes(hours, minutes)]: the new value of the form
    field ([startTimeHours] and [startTimeMinutes] only feed the selects). *)
Definition updateStartTimeMinutes (hours minutes : Z) (values : FormValues)
    : FormValues :=
  let totalMinutes := hours * 60 + minutes in
  {| in_classId := in_classId values;
     in_subject := in_subject values;
     in_dayOfWeek := in_dayOfWeek values;
     in_startTimeMinutes := VNum totalMinutes;
     in_durationMinutes := in_durationMinutes values;
     in_location := in_location values;
     in_attendanceWindowMinutes := in_attendanceWindowMinutes values;
     in_isActive := in_isActive values |}.

(** The navigations of a trace, in order. *)
Definition navigationsOf (t : list Event) : list string :=
  omap (fun e => match e with EvNavigate to => Some to | _ => None end) t.

(** The values a slider with the given [min], [max] and [step] can take. *)
Definition sliderValues (min max step : Z) : list Z :=
  List.filter (fun v => v <=? max)
    (List.map (fun k => min + k * step) (seqZ 0 ((max - min) / step + 1))).

End CreateLessonControls.

(* ===================================================================== *)
(** ** Further sample data *)
(* ===================================================================== *)

Module MoreExamples.

(** A short Monday lesson, 10:00-10:30, with a window of 45 minutes. *)
Definition shortLesson : Lesson :=
  {| id := 9; dayOfWeek := 1; startTimeMinutes := 600; durationMinutes := 30;
     attendanceWindowMinutes := Some 45; createdAt := None; attendance := None |}.

(** A lesson on the given day of the week and start minute. *)
Definition lessonAt (n day start : Z) : Lesson :=
  {| id := n; dayOfWeek := day; startTimeMinutes := start; durationMinutes := 60;
     attendanceWindowMinutes := None; createdAt := None; attendance := None |}.

(** A class of three students, one of whom already has a record. *)
Definition classList : list BulkAttendanceView.Student :=
  [{| BulkAttendanceView.studentId := 41%N;
      BulkAttendanceView.fullName := "Ada Obi";
      BulkAttendanceView.username := "ada" |};
   {| BulkAttendanceView.studentId := 42%N;
      BulkAttendanceView.fullName := "Ben Kato";
      BulkAttendanceView.username := "ben" |};
   {| BulkAttendanceView.studentId := 43%N;
      BulkAttendanceView.fullName := "Cy Mwangi";
      BulkAttendanceView.username := "cy" |}].

Definition existingRecords : list AttendanceRecord :=
  [{| ar_lessonId := 7; ar_studentId := 42; ar_status := absent;
      markedAtTime := None |}].

Definition emptySheet : BulkAttendance.PageState :=
  {| BulkAttendance.lessonId := Some 7;
     BulkAttendance.forceAttendance := false;
     BulkAttendance.attendanceData := ∅ |}.

(** A form filled in through the controls of the page. *)
Definition controlledForm : CreateLesson.FormValues :=
  CreateLessonControls.updateStartTimeMinutes 14 45
    {| CreateLesson.in_classId := CreateLesson.VStr "3";
       CreateLesson.in_subject := CreateLesson.VStr "Physics";
       CreateLesson.in_dayOfWeek := CreateLesson.VNum 4;
       CreateLesson.in_startTimeMinutes := CreateLesson.VNum (8 * 60);
       CreateLesson.in_durationMinutes := CreateLesson.VNum 90;
       CreateLesson.in_location := CreateLesson.VStr "";
       CreateLesson.in_attendanceWindowMinutes := CreateLesson.VNum 20;
       CreateLesson.in_isActive := CreateLesson.VBool true |}.

End MoreExamples.

(* ===================================================================== *)
(** ** Sample data *)
(* ===================================================================== *)

Module Examples.

(** Midnight of Monday 1 January 2024. *)
Definition monday : Date := 19723 * msPerDay.

Definition at_time (day : Date) (hours minutes : Z) : Date :=
  day + hours * msPerHour + minutes * msPerMinute.

(** A weekly Monday lesson, 10:00-11:00. *)
Definition mondayLesson (window : option Z) (marked : option AttendanceRecord)
    : Lesson :=
  {| id := 7; dayOfWeek := 1; startTimeMinutes := 600; durationMinutes := 60;
     attendanceWindowMinutes := window; createdAt := None;
     attendance := marked |}.

(** The same lesson, created ad hoc at 08:00 of that Monday. *)
Definition instantLesson : Lesson :=
  {| id := 8; dayOfWeek := 1; startTimeMinutes := 600; durationMinutes := 60;
     attendanceWindowMinutes := Some 30;
     createdAt := Some (ValidDate (at_time monday 8 0));
     attendance := None |}.

(** A server that accepts every request. *)
Definition alwaysOk (n : unit) (r : Request) : unit * Outcome Response :=
  (tt, Returned {| ok := true; json := Returned (JObj []) |}).

(** A server whose state counts the requests seen; the second one is
    refused with a message. *)
Definition refusesSecond (n : nat) (r : Request) : nat * Outcome Response :=
  (S n,
   if (n =? 1)%nat
   then Returned {| ok := false;
                    json := Returned (JObj [("message", JStr "Attendance window closed")]) |}
   else Returned {| ok := true; json := Returned (JObj []) |}).

(** Three students marked on the bulk page. *)
Definition bulkState (lesson : option Z) (force : bool) : BulkAttendance.PageState :=
  {| BulkAttendance.lessonId := lesson;
     BulkAttendance.forceAttendance := force;
     BulkAttendance.attendanceData :=
       <[43%N := present]> (<[41%N := present]> (<[42%N := absent]> ∅)) |}.

(** A filled-in create-lesson form: the class comes from the select as a
    string, the attendance window is left out. *)
Definition filledForm (day : Z) : CreateLesson.FormValues :=
  {| CreateLesson.in_classId := CreateLesson.VStr "3";
     CreateLesson.in_subject := CreateLesson.VStr "Physics";
     CreateLesson.in_dayOfWeek := CreateLesson.VNum day;
     CreateLesson.in_startTimeMinutes := CreateLesson.VNum 480;
     CreateLesson.in_durationMinutes := CreateLesson.VNum 60;
     CreateLesson.in_location := CreateLesson.VStr "Lab 3";
     CreateLesson.in_attendanceWindowMinutes := CreateLesson.VUndefined;
     CreateLesson.in_isActive := CreateLesson.VBool true |}.

(** The same form for a Monday with another subject. *)
Definition subjectForm (subject : string) : CreateLesson.FormValues :=
  {| CreateLesson.in_classId := CreateLesson.VStr "3";
     CreateLesson.in_subject := CreateLesson.VStr subject;
     CreateLesson.in_dayOfWeek := CreateLesson.VNum 1;
     CreateLesson.in_startTimeMinutes := CreateLesson.VNum 480;
     CreateLesson.in_durationMinutes := CreateLesson.VNum 60;
     CreateLesson.in_location := CreateLesson.VStr "Lab 3";
     CreateLesson.in_attendanceWindowMinutes := CreateLesson.VUndefined;
     CreateLesson.in_isActive := CreateLesson.VBool true |}.

Definition markedRecord : AttendanceRecord :=
  {| ar_lessonId := 7; ar_studentId := 42; ar_status := present;
     markedAtTime := Some "10:02" |}.

End Examples.

(* ===================================================================== *)
(** * Properties *)
(* ===================================================================== *)

(** Turns boolean comparisons on [Z] into propositions. *)
Ltac zbool :=
  rewrite ?andb_true_iff, ?andb_false_iff, ?orb_true_iff, ?negb_true_iff,
    ?negb_false_iff, ?Z.leb_le, ?Z.ltb_lt, ?Z.eqb_eq, ?Z.leb_gt, ?Z.ltb_ge,
    ?Z.eqb_neq in *.

(** Splits on the first comparison of the goal and records its outcome as a
    proposition. *)
Ltac case_cmp :=
  repeat (let E := fresh "Hcmp" in
          match goal with
          | |- context [?x =? ?y] => destruct (x =? y) eqn:E
          | |- context [?x <? ?y] => destruct (x <? y) eqn:E
          | |- context [?x <=? ?y] => destruct (x <=? y) eqn:E
          end);
  rewrite ?Z.leb_le, ?Z.ltb_lt, ?Z.eqb_eq, ?Z.leb_gt, ?Z.ltb_ge, ?Z.eqb_neq in * |-.

(** ** The [||] default *)

Lemma orDefault_absent d : Js.orDefault None d = d.
Proof. reflexivity. Qed.

Lemma orDefault_zero d : Js.orDefault (Some 0) d = d.
Proof. reflexivity. Qed.

Lemma orDefault_nonzero v d : v <> 0 -> Js.orDefault (Some v) d = v.
Proof. intros Hv. unfold Js.orDefault. case_cmp; [contradiction | reflexivity]. Qed.

(** ** Clock readings *)

Lemma getDay_range now : 0 <= getDay now < 7.
Proof. unfold getDay. apply Z.mod_pos_bound. lia. Qed.

Lemma getHours_range now : 0 <= getHours now < 24.
Proof. unfold getHours. apply Z.mod_pos_bound. lia. Qed.

Lemma getMinutes_range now : 0 <= getMinutes now < 60.
Proof. unfold getMinutes. apply Z.mod_pos_bound. lia. Qed.

Lemma currentMinutes_range now : 0 <= currentMinutesOf now <= 1439.
Proof.
  unfold currentMinutesOf.
  pose proof (getHours_range now). pose proof (getMinutes_range now). lia.
Qed.

Example monday_is_monday : getDay Examples.monday = 1.
Proof. reflexivity. Qed.

Example ten_past_ten :
  currentMinutesOf (Examples.at_time Examples.monday 10 10) = 610.
Proof. reflexivity. Qed.

(** ** Student dashboard: the attendance window *)

Import StudentDashboard.

(** A lesson without creation time, or created at least a day ago, takes the
    regular branch. *)
Lemma regular_not_instant now lesson :
  (createdAt lesson = None
   \/ exists c, createdAt lesson = Some (ValidDate c)
                /\ 24 * 60 * 60 * 1000 <= getTime now - getTime c) ->
  instantCreation now lesson = None.
Proof.
  unfold instantCreation. intros [-> | (c & -> & Hc)]; [reflexivity |].
  case_cmp; [lia | reflexivity].
Qed.

Lemma isAttendanceWindowOpen_regular_branch now lesson :
  instantCreation now lesson = None ->
  isAttendanceWindowOpen now (Some lesson) = true <->
  dayOfWeek lesson = getDay now
  /\ startTimeMinutes lesson <= currentMinutesOf now
     <= startTimeMinutes lesson + Js.orDefault (attendanceWindowMinutes lesson) 30.
Proof.
  intros Hreg. unfold isAttendanceWindowOpen. rewrite Hreg. cbv zeta.
  destruct (Z.eqb_spec (dayOfWeek lesson) (getDay now)) as [Hd | Hd]; cbn [negb].
  - zbool. intuition lia.
  - split; [discriminate | intros [? _]; contradiction].
Qed.

(** C1, as amended: for a regular lesson the dashboard check holds exactly
    when the lesson is scheduled for today's day of week and the current
    minute lies in the closed interval from the lesson's start to start + w,
    where w is [attendanceWindowMinutes] when that is present and nonzero and
    30 when it is absent or zero. *)
Theorem isAttendanceWindowOpen_regular now lesson :
  (createdAt lesson = None
   \/ exists c, createdAt lesson = Some (ValidDate c)
                /\ 24 * 60 * 60 * 1000 <= getTime now - getTime c) ->
  isAttendanceWindowOpen now (Some lesson) = true <->
  dayOfWeek lesson = getDay now
  /\ startTimeMinutes lesson <= currentMinutesOf now
     <= startTimeMinutes lesson
        + match attendanceWindowMinutes lesson with
          | Some w => if w =? 0 then 30 else w
          | None => 30
          end.
Proof.
  intros Hreg. apply regular_not_instant in Hreg.
  apply (isAttendanceWindowOpen_regular_branch now lesson Hreg).
Qed.

Lemma isAttendanceWindowOpen_regular_witness :
  createdAt (Examples.mondayLesson (Some 20) None) = None
  /\ (isAttendanceWindowOpen (Examples.at_time Examples.monday 10 10)
        (Some (Examples.mondayLesson (Some 20) None)) = true <->
      dayOfWeek (Examples.mondayLesson (Some 20) None)
      = getDay (Examples.at_time Examples.monday 10 10)
      /\ 600 <= currentMinutesOf (Examples.at_time Examples.monday 10 10) <= 600 + 20).
Proof.
  split; [reflexivity |].
  apply (isAttendanceWindowOpen_regular (Examples.at_time Examples.monday 10 10)
           (Examples.mondayLesson (Some 20) None)).
  left; reflexivity.
Defined.

(** C1, as stated, fails when the lesson carries a window of 0 minutes: ten
    minutes after the start the check still holds, although the interval
    from start to start + 0 is over. *)
Lemma isAttendanceWindowOpen_zero_window :
  let now := Examples.at_time Examples.monday 10 10 in
  let lesson := Examples.mondayLesson (Some 0) None in
  createdAt lesson = None
  /\ ~ (isAttendanceWindowOpen now (Some lesson) = true <->
        dayOfWeek lesson = getDay now
        /\ startTimeMinutes lesson <= currentMinutesOf now
           <= startTimeMinutes lesson + default 30 (attendanceWindowMinutes lesson)).
Proof.
  cbv zeta. split; [reflexivity |].
  intros [Hopen _].
  assert (Ht : isAttendanceWindowOpen (Examples.at_time Examples.monday 10 10)
                 (Some (Examples.mondayLesson (Some 0) None)) = true)
    by reflexivity.
  apply Hopen in Ht. destruct Ht as [_ [_ Hend]].
  vm_compute in Hend. apply Hend. reflexivity.
Qed.

Lemma isAttendanceWindowOpen_instant_branch now lesson c :
  instantCreation now lesson = Some c ->
  isAttendanceWindowOpen now (Some lesson) = true <->
  dayOfWeek lesson = getDay now
  /\ currentMinutesOf now
     <= Z.max (startTimeMinutes lesson
               + Js.orDefault (attendanceWindowMinutes lesson) 30)
              (currentMinutesOf c
               + Js.orDefault (attendanceWindowMinutes lesson) 30).
Proof.
  intros Hinst. unfold isAttendanceWindowOpen. rewrite Hinst. cbv zeta.
  fold (currentMinutesOf c).
  destruct (Z.eqb_spec (dayOfWeek lesson) (getDay now)) as [Hd | Hd]; cbn [negb].
  - zbool. intuition lia.
  - split; [discriminate | intros [? _]; contradiction].
Qed.

(** C2, as amended: when the dashboard check holds for a lesson that is not
    instant, the current minute is at or after the lesson's start; for an
    instant lesson the check has no lower bound and only requires the
    current minute to be at most the later of start + w and creation
    minute + w. *)
Theorem isAttendanceWindowOpen_start_bound now lesson :
  isAttendanceWindowOpen now (Some lesson) = true ->
  match instantCreation now lesson with
  | None => startTimeMinutes lesson <= currentMinutesOf now
  | Some c =>
      currentMinutesOf now
      <= Z.max (startTimeMinutes lesson
                + Js.orDefault (attendanceWindowMinutes lesson) 30)
               (currentMinutesOf c
                + Js.orDefault (attendanceWindowMinutes lesson) 30)
  end.
Proof.
  intros Hopen. destruct (instantCreation now lesson) as [c |] eqn:Hinst.
  - apply (isAttendanceWindowOpen_instant_branch now lesson c Hinst) in Hopen.
    tauto.
  - apply (isAttendanceWindowOpen_regular_branch now lesson Hinst) in Hopen.
    tauto.
Qed.

Lemma isAttendanceWindowOpen_start_bound_witness :
  isAttendanceWindowOpen (Examples.at_time Examples.monday 10 10)
    (Some (Examples.mondayLesson None None)) = true
  /\ 600 <= currentMinutesOf (Examples.at_time Examples.monday 10 10).
Proof.
  split; [reflexivity |].
  apply (isAttendanceWindowOpen_start_bound
           (Examples.at_time Examples.monday 10 10)
           (Examples.mondayLesson None None)).
  reflexivity.
Defined.

(** C2, as stated, fails for an instant lesson: created at 08:00 for a
    10:00 start, it is open at 09:00, an hour before it starts. *)
Lemma isAttendanceWindowOpen_before_start :
  let now := Examples.at_time Examples.monday 9 0 in
  let lesson := Examples.instantLesson in
  isInstantLesson now lesson = true
  /\ isAttendanceWindowOpen now (Some lesson) = true
  /\ currentMinutesOf now < startTimeMinutes lesson.
Proof. cbv zeta. split; [reflexivity |]. split; reflexivity. Qed.

(** ** Student lessons page *)

Import StudentLessons.

Lemma canMarkAttendance_iff now lesson :
  canMarkAttendance now (Some lesson) = true <->
  dayOfWeek lesson = getDay now
  /\ startTimeMinutes lesson <= currentMinutesOf now
     <= startTimeMinutes lesson + Js.orDefault (attendanceWindowMinutes lesson) 15
  /\ attendance lesson = None.
Proof.
  unfold canMarkAttendance. cbv zeta.
  destruct (Z.eqb_spec (dayOfWeek lesson) (getDay now)) as [Hd | Hd]; cbn [negb].
  - destruct (attendance lesson); zbool; intuition (lia || discriminate).
  - split; [discriminate | intros [? _]; contradiction].
Qed.

(** C3: the dashboard check and the lessons-page check disagree on some
    inputs.  With no window configured, twenty minutes after the start the
    dashboard (default 30) is open and the lessons page (default 15) is
    closed; and for a lesson that is already marked, the dashboard check is
    open inside the window while the lessons-page check is not. *)
Theorem eligibility_checks_differ :
  (exists now lesson,
      attendanceWindowMinutes lesson = None
      /\ attendance lesson = None
      /\ isAttendanceWindowOpen now (Some lesson) = true
      /\ canMarkAttendance now (Some lesson) = false)
  /\ (exists now lesson a,
         attendanceWindowMinutes lesson = Some 30
         /\ attendance lesson = Some a
         /\ isAttendanceWindowOpen now (Some lesson) = true
         /\ canMarkAttendance now (Some lesson) = false).
Proof.
  split.
  - exists (Examples.at_time Examples.monday 10 20), (Examples.mondayLesson None None).
    repeat split; reflexivity.
  - exists (Examples.at_time Examples.monday 10 5),
      (Examples.mondayLesson (Some 30) (Some Examples.markedRecord)),
      Examples.markedRecord.
    repeat split; reflexivity.
Qed.

(** C5: for a lesson that already carries an attendance record,
    [canMarkAttendance] is false at every time, and the lesson card shows
    the disabled "Already Marked" footer, not the "Mark Present" button that
    opens the marking dialog. *)
Theorem canMarkAttendance_marked now lesson a :
  attendance lesson = Some a ->
  canMarkAttendance now (Some lesson) = false
  /\ cardFooter now lesson = AlreadyMarked.
Proof.
  intros Ha.
  assert (Hcan : canMarkAttendance now (Some lesson) = false).
  { destruct (canMarkAttendance now (Some lesson)) eqn:Hc; [| reflexivity].
    apply canMarkAttendance_iff in Hc. destruct Hc as (_ & _ & Hnone).
    congruence. }
  split; [exact Hcan |].
  unfold cardFooter. rewrite Hcan, Ha. reflexivity.
Qed.

Lemma canMarkAttendance_marked_witness :
  attendance (Examples.mondayLesson (Some 30) (Some Examples.markedRecord))
  = Some Examples.markedRecord
  /\ canMarkAttendance (Examples.at_time Examples.monday 10 5)
       (Some (Examples.mondayLesson (Some 30) (Some Examples.markedRecord))) = false
  /\ cardFooter (Examples.at_time Examples.monday 10 5)
       (Examples.mondayLesson (Some 30) (Some Examples.markedRecord)) = AlreadyMarked.
Proof.
  split; [reflexivity |].
  apply (canMarkAttendance_marked (Examples.at_time Examples.monday 10 5)
           (Examples.mondayLesson (Some 30) (Some Examples.markedRecord))
           Examples.markedRecord).
  reflexivity.
Defined.

(** The "Mark Present" button is rendered exactly when [canMarkAttendance]
    holds. *)
Lemma cardFooter_button now lesson :
  cardFooter now lesson = MarkPresentButton <->
  canMarkAttendance now (Some lesson) = true.
Proof.
  unfold cardFooter. destruct (canMarkAttendance now (Some lesson)).
  - tauto.
  - destruct (attendance lesson); [| destruct (hasTimePassed _ _)];
      split; discriminate.
Qed.

(** On the dashboard the row of a lesson with a record of the signed-in
    student does not open the marking dialog either. *)
Lemma rowSelectsLesson_marked now attendanceRecords userId lesson :
  hasMarkedAttendance attendanceRecords userId (Some lesson) = true ->
  rowSelectsLesson now attendanceRecords userId lesson = false.
Proof.
  intros Hmarked. unfold rowSelectsLesson. rewrite Hmarked.
  apply andb_false_r.
Qed.

Lemma hasMarkedAttendance_iff attendanceRecords userId lesson :
  hasMarkedAttendance attendanceRecords userId (Some lesson) = true <->
  exists record u,
    In record attendanceRecords /\ userId = Some u
    /\ ar_lessonId record = id lesson /\ ar_studentId record = u.
Proof.
  unfold hasMarkedAttendance.
  destruct attendanceRecords as [| r0 rest].
  - cbn. split; [discriminate | intros (r & u & [] & _)].
  - cbn [length Nat.eqb]. rewrite existsb_exists. split.
    + intros (r & Hin & Hr). apply andb_true_iff in Hr as [Hl Hu].
      destruct userId as [u |]; [| discriminate].
      exists r, u. zbool. tauto.
    + intros (r & u & Hin & -> & Hl & Hu). exists r. split; [exact Hin |].
      zbool. tauto.
Qed.

(** C10: for a lesson of nonnegative duration, "upcoming" and "past" never
    hold together; a lesson of today that is in progress is neither; and a
    lesson on an earlier weekday than today is never upcoming, since the day
    comparison does not wrap around the week. *)
Theorem future_past_classification now lesson :
  0 <= durationMinutes lesson ->
  (isLessonInFuture now lesson && isLessonInPast now lesson = false)
  /\ (dayOfWeek lesson = getDay now ->
      startTimeMinutes lesson <= currentMinutesOf now
        <= startTimeMinutes lesson + durationMinutes lesson ->
      isLessonInFuture now lesson = false /\ isLessonInPast now lesson = false)
  /\ (dayOfWeek lesson < getDay now -> isLessonInFuture now lesson = false).
Proof.
  intros Hdur. unfold isLessonInFuture, isLessonInPast. cbv zeta.
  repeat split; intros; case_cmp; cbn; try reflexivity; lia.
Qed.

Lemma future_past_classification_witness :
  0 <= durationMinutes (Examples.mondayLesson None None)
  /\ isLessonInFuture (Examples.at_time Examples.monday 10 20)
       (Examples.mondayLesson None None) = false
  /\ isLessonInPast (Examples.at_time Examples.monday 10 20)
       (Examples.mondayLesson None None) = false.
Proof.
  split; [vm_compute; discriminate |].
  apply (future_past_classification (Examples.at_time Examples.monday 10 20)
           (Examples.mondayLesson None None)).
  - vm_compute; discriminate.
  - reflexivity.
  - vm_compute. split; discriminate.
Defined.

(** A Monday lesson seen on a Wednesday is listed as past, never as
    upcoming. *)
Example monday_lesson_on_wednesday :
  let now := Examples.at_time (addDays Examples.monday 2) 9 0 in
  isLessonInFuture now (Examples.mondayLesson None None) = false
  /\ isLessonInPast now (Examples.mondayLesson None None) = true.
Proof. split; reflexivity. Qed.

(** ** Bulk attendance: the date of the lesson *)

Import BulkAttendance.

Lemma clearTime_multiple now : clearTime now = dayNumber now * msPerDay.
Proof.
  unfold clearTime, msOfDay, dayNumber, msPerDay.
  Z.div_mod_to_equations. lia.
Qed.

Lemma clearTime_addDays now k : clearTime (addDays now k) = addDays (clearTime now) k.
Proof.
  unfold clearTime, addDays, msOfDay.
  rewrite Z.mod_add by (unfold msPerDay; lia). lia.
Qed.

Lemma dayNumber_midnight now k :
  dayNumber (addDays (clearTime now) k) = dayNumber now + k.
Proof.
  rewrite clearTime_multiple. unfold addDays, dayNumber.
  rewrite <- Z.mul_add_distr_r. apply Z.div_mul. unfold msPerDay; lia.
Qed.

Lemma getDay_midnight now k :
  getDay (addDays (clearTime now) k) = (getDay now + k) mod 7.
Proof.
  unfold getDay. rewrite dayNumber_midnight.
  rewrite Zplus_mod_idemp_l. f_equal. lia.
Qed.

Lemma midnight_time_cleared now k :
  let d := addDays (clearTime now) k in
  msOfDay d = 0 /\ getHours d = 0 /\ getMinutes d = 0.
Proof.
  cbv zeta. rewrite clearTime_multiple.
  unfold addDays, msOfDay, getHours, getMinutes, msPerDay, msPerHour, msPerMinute.
  generalize (dayNumber now). intros n.
  repeat split; Z.div_mod_to_equations; lia.
Qed.

(** C9: for a lesson whose day of week is in 0..6, [calculateLessonDate]
    returns local midnight of the day today + k for the only k in 0..6 whose
    day of week is the lesson's; k is 0 when the lesson's day is today's. *)
Theorem calculateLessonDate_next_occurrence now lesson :
  0 <= dayOfWeek lesson <= 6 ->
  exists k,
    0 <= k <= 6
    /\ calculateLessonDate now (Some lesson) = Some (addDays (clearTime now) k)
    /\ getDay (addDays (clearTime now) k) = dayOfWeek lesson
    /\ (msOfDay (addDays (clearTime now) k) = 0
        /\ getHours (addDays (clearTime now) k) = 0
        /\ getMinutes (addDays (clearTime now) k) = 0)
    /\ (forall j, 0 <= j <= 6 ->
                  getDay (addDays (clearTime now) j) = dayOfWeek lesson -> j = k)
    /\ (dayOfWeek lesson = getDay now -> k = 0).
Proof.
  intros Hd. pose proof (getDay_range now) as Hn.
  exists (Js.rem (dayOfWeek lesson - getDay now + 7) 7).
  unfold Js.rem. rewrite Z.rem_mod_nonneg by lia.
  split; [pose proof (Z.mod_pos_bound (dayOfWeek lesson - getDay now + 7) 7); lia |].
  split.
  { unfold calculateLessonDate. cbv zeta. unfold Js.rem.
    rewrite Z.rem_mod_nonneg by lia. rewrite clearTime_addDays. reflexivity. }
  split.
  { rewrite getDay_midnight. Z.div_mod_to_equations. lia. }
  split; [apply midnight_time_cleared |].
  split.
  { intros j Hj. rewrite getDay_midnight. Z.div_mod_to_equations. lia. }
  intros ->. Z.div_mod_to_equations. lia.
Qed.

Lemma calculateLessonDate_next_occurrence_witness :
  0 <= dayOfWeek (Examples.mondayLesson None None) <= 6
  /\ exists k,
      0 <= k <= 6
      /\ calculateLessonDate (Examples.at_time (addDays Examples.monday 5) 10 10)
           (Some (Examples.mondayLesson None None))
         = Some (addDays (clearTime (Examples.at_time (addDays Examples.monday 5) 10 10)) k)
      /\ getDay (addDays (clearTime (Examples.at_time (addDays Examples.monday 5) 10 10)) k)
         = 1
      /\ (msOfDay (addDays (clearTime (Examples.at_time (addDays Examples.monday 5) 10 10)) k) = 0
          /\ getHours (addDays (clearTime (Examples.at_time (addDays Examples.monday 5) 10 10)) k) = 0
          /\ getMinutes (addDays (clearTime (Examples.at_time (addDays Examples.monday 5) 10 10)) k) = 0)
      /\ (forall j, 0 <= j <= 6 ->
                    getDay (addDays (clearTime (Examples.at_time (addDays Examples.monday 5) 10 10)) j)
                    = 1 -> j = k)
      /\ (1 = getDay (Examples.at_time (addDays Examples.monday 5) 10 10) -> k = 0).
Proof.
  split; [vm_compute; split; discriminate |].
  apply (calculateLessonDate_next_occurrence
           (Examples.at_time (addDays Examples.monday 5) 10 10)
           (Examples.mondayLesson None None)).
  vm_compute; split; discriminate.
Defined.

(** Seen on a Saturday, the Monday lesson falls two days later; seen on the
    Monday itself, it falls today. *)
Example calculateLessonDate_saturday :
  calculateLessonDate (Examples.at_time (addDays Examples.monday 5) 10 10)
    (Some (Examples.mondayLesson None None))
  = Some (addDays Examples.monday 7).
Proof. reflexivity. Qed.

Example calculateLessonDate_same_day :
  calculateLessonDate (Examples.at_time Examples.monday 23 59)
    (Some (Examples.mondayLesson None None))
  = Some Examples.monday.
Proof. reflexivity. Qed.

(** ** Traces *)

Lemma inFlight_app n t1 t2 : inFlight n (t1 ++ t2) = inFlight (inFlight n t1) t2.
Proof.
  revert n. induction t1 as [| e t1 IH]; intros n; [reflexivity |].
  destruct e; cbn; apply IH.
Qed.


Lemma neverOverlaps_app n t1 t2 :
  neverOverlaps n t1 = true ->
  neverOverlaps (inFlight n t1) t2 = true ->
  neverOverlaps n (t1 ++ t2) = true.
Proof.
  revert n. induction t1 as [| e t1 IH]; intros n H1 H2; [exact H2 |].
  cbn in H1 |- *. apply andb_true_iff in H1 as [Hn H1].
  rewrite Hn. cbn [andb]. apply IH; [exact H1 |].
  destruct e; exact H2.
Qed.


(** Unfolds the effect combinators of a handler and runs it as far as the
    next case distinction. *)
Ltac run_handler :=
  unfold apiRequest, fetch, request, mutate, mutateAsync, tryCatch, tryFinally,
    bind, emit, throw, ret, sleep, consoleError, toast, invalidateQueries,
    responseJson;
  cbn.

(** ** Bulk attendance: what one run of the save loop does *)

Section HandlerRuns.

Variable NetState : Type.
Variable serve : NetState -> Request -> NetState * Outcome Response.

Lemma saveStudent_run st k s f w :
  exists evs (success : bool) w1,
    saveStudent NetState serve st k s f w
    = (Returned (if success then (s + 1, f) else (s, f + 1)), w1)
    /\ trace w1 = trace w ++ evs
    /\ mutationsOf evs = [mutationVariables (Z.of_N k) (attendanceData st !! k)]
    /\ requestsOf evs = (if Js.truthy (lessonId st) then [attendanceRequest st k] else [])
    /\ sleepsOf evs = (if success then [100] else [])
    /\ length (settledOf evs) = length (requestsOf evs)
    /\ length (filter (fun r => succeeded r = true) (settledOf evs)) = (if success then 1 else 0)%nat
    /\ neverOverlaps 0 evs = true
    /\ inFlight 0 evs = 0.
Proof.
  unfold saveStudent, markAttendanceMutation_mutateAsync,
    markAttendance_mutationFn, markAttendance_onError, markAttendance_onSuccess.
  destruct (Js.truthy (lessonId st)) eqn:Hl; cbn [negb]; run_handler.
  - fold (attendanceRequest st k).
    destruct (serve (net w) (attendanceRequest st k)) as [n' [[[|] [j|m]]|msg]];
      cbn; rewrite <- !(assoc_L (++));
      first [ eexists _, true, _; (split; [reflexivity |])
            | eexists _, false, _; (split; [reflexivity |]) ];
      (split; [reflexivity |]); repeat split.
  - rewrite <- !(assoc_L (++)).
    eexists _, false, _; (split; [reflexivity |]); (split; [reflexivity |]);
      repeat split.
Qed.

Lemma saveLoop_run st ids : forall s f w,
  exists evs (successes : nat) w1,
    saveLoop NetState serve st ids s f w
    = (Returned (s + Z.of_nat successes,
                 f + (Z.of_nat (length ids) - Z.of_nat successes)), w1)
    /\ (successes <= length ids)%nat
    /\ trace w1 = trace w ++ evs
    /\ mutationsOf evs
       = map (fun k => mutationVariables (Z.of_N k) (attendanceData st !! k)) ids
    /\ requestsOf evs
       = (if Js.truthy (lessonId st) then map (attendanceRequest st) ids else [])
    /\ sleepsOf evs = replicate successes 100
    /\ length (settledOf evs) = length (requestsOf evs)
    /\ length (filter (fun r => succeeded r = true) (settledOf evs)) = successes
    /\ neverOverlaps 0 evs = true
    /\ inFlight 0 evs = 0.
Proof.
  induction ids as [| k ids IH]; intros s f w.
  - exists [], 0%nat, w. cbn. rewrite app_nil_r, !Z.add_0_r.
    destruct (Js.truthy (lessonId st)); repeat split; reflexivity.
  - destruct (saveStudent_run st k s f w)
      as (e1 & ok1 & w1 & Hrun & Ht1 & Hm1 & Hr1 & Hs1 & Hl1 & Hc1 & Ho1 & Hi1).
    cbn [saveLoop]. unfold bind at 1. rewrite Hrun.
    destruct (IH (fst (if ok1 then (s + 1, f) else (s, f + 1)))
                 (snd (if ok1 then (s + 1, f) else (s, f + 1))) w1)
      as (e2 & n2 & w2 & Hrun2 & Hle & Ht2 & Hm2 & Hr2 & Hs2 & Hl2 & Hc2 & Ho2 & Hi2).
    rewrite Hrun2.
    exists (e1 ++ e2), ((if ok1 then 1 else 0) + n2)%nat, w2.
    split. { destruct ok1; cbn [fst snd length]; do 2 f_equal; f_equal; lia. }
    split. { destruct ok1; cbn [length]; lia. }
    split. { rewrite Ht2, Ht1. symmetry. apply (assoc_L (++)). }
    unfold mutationsOf, requestsOf, sleepsOf, settledOf in *.
    rewrite !omap_app, filter_app, !length_app, Hl1, Hl2, Hm1, Hm2, Hs1, Hs2, Hc1, Hc2.
    split; [reflexivity |].
    split. { rewrite Hr1, Hr2. destruct (Js.truthy (lessonId st)); reflexivity. }
    split. { destruct ok1; reflexivity. }
    split; [reflexivity |].
    split; [reflexivity |].
    split. { apply neverOverlaps_app; [exact Ho1 | rewrite Hi1; exact Ho2]. }
    rewrite inFlight_app, Hi1. exact Hi2.
Qed.


Lemma objectKeys_perm (data : gmap N Status) :
  objectKeys data ≡ₚ elements (dom data).
Proof. apply merge_sort_Permutation. Qed.


Lemma objectKeys_marked (data : gmap N Status) k :
  k ∈ objectKeys data <-> is_Some (data !! k).
Proof. rewrite objectKeys_perm, elem_of_elements. apply elem_of_dom. Qed.

Lemma objectKeys_length (data : gmap N Status) :
  length (objectKeys data) = size data.
Proof. rewrite objectKeys_perm. rewrite <- size_dom. reflexivity. Qed.

(** Toggling a student marks that student and nobody else. *)
Lemma toggleAttendance_keys st studentId status k :
  k ∈ objectKeys (attendanceData (toggleAttendance st studentId status)) <->
  k = studentId \/ k ∈ objectKeys (attendanceData st).
Proof.
  rewrite !objectKeys_marked. cbn. rewrite lookup_insert_is_Some.
  split; [intros [-> | [_ Hk]]; tauto |].
  intros [-> | Hk]; [tauto |].
  destruct (decide (studentId = k)); tauto.
Qed.

Lemma saveAllAttendance_run st w :
  exists evs (successes : nat) w1,
    saveAllAttendance NetState serve st w = (Returned tt, w1)
    /\ (successes <= size (attendanceData st))%nat
    /\ trace w1
       = trace w
         ++ [EvSetState "isSaving" (JBool true)]
         ++ evs
         ++ [EvInvalidate {| path := "/api/attendance"; keyArg := lessonId st |};
             EvRefetch;
             EvToast (savedToast (Z.of_nat successes)
                        (Z.of_nat (size (attendanceData st)) - Z.of_nat successes));
             EvSetState "isSaving" (JBool false)]
    /\ mutationsOf evs
       = map (fun k => mutationVariables (Z.of_N k) (attendanceData st !! k))
           (objectKeys (attendanceData st))
    /\ requestsOf evs
       = (if Js.truthy (lessonId st)
          then map (attendanceRequest st) (objectKeys (attendanceData st))
          else [])
    /\ sleepsOf evs = replicate successes 100
    /\ length (settledOf evs) = length (requestsOf evs)
    /\ length (filter (fun r => succeeded r = true) (settledOf evs)) = successes
    /\ neverOverlaps 0 evs = true
    /\ inFlight 0 evs = 0.
Proof.
  unfold saveAllAttendance. run_handler.
  destruct (saveLoop_run st (objectKeys (attendanceData st)) 0 0
              {| net := net w;
                 trace := trace w ++ [EvSetState "isSaving" (JBool true)] |})
    as (evs & n & w1 & Hrun & Hle & Ht & Hm & Hr & Hs & Hl & Hc & Ho & Hi).
  rewrite Hrun. cbn. rewrite objectKeys_length in Hle.
  eexists evs, n, _. split; [reflexivity |].
  split; [exact Hle |].
  split.
  { cbn. rewrite Ht. cbn. rewrite objectKeys_length, !Z.add_0_l.
    rewrite <- !(assoc_L (++)). reflexivity. }
  repeat split; assumption.
Qed.





(** *** Student lessons page: the self-marking request *)

Lemma handleMarkAttendance_requests userId selectedLesson n :
  requestsOf
    (eventsOf (StudentLessons.handleMarkAttendance NetState serve userId selectedLesson) n)
  = match selectedLesson with
    | Some l =>
        [{| method := "POST"; url := "/api/attendance";
            body := JObj ([("lessonId", JNum (id l))]
                          ++ StudentLessons.userIdField userId
                          ++ [("status", JStr "present")]) |}]
    | None => []
    end.
Proof.
  unfold eventsOf, StudentLessons.handleMarkAttendance.
  destruct selectedLesson as [l |]; [| reflexivity].
  unfold StudentLessons.markAttendance_mutationFn,
    StudentLessons.markAttendance_onSuccess, StudentLessons.markAttendance_onError.
  run_handler.
  destruct (serve n _) as [n' [[[|] [j|m]]|msg]]; reflexivity.
Qed.


End HandlerRuns.



(** With a server that refuses the second request, the first and the third
    student are still saved; the run sleeps twice and reports two successes
    and one failure. *)
Example saveAllAttendance_one_refused :
  let evs := eventsOf (saveAllAttendance nat Examples.refusesSecond
                         (Examples.bulkState (Some 7) true)) 0%nat in
  map url (requestsOf evs)
  = ["/api/attendance?force=true"; "/api/attendance?force=true";
     "/api/attendance?force=true"]
  /\ sleepsOf evs = [100; 100]
  /\ map description (toastsOf evs)
     = ["Attendance window closed";
        "Successfully marked 2 students, failed for 1 students"].
Proof. cbv zeta. repeat split; vm_compute; reflexivity. Qed.

(** ** Create lesson: the form schema *)

Section CreateLessonForm.

Import CreateLesson.

Variable stringToNumber : string -> JsNumber.
Variable NetState : Type.
Variable serve : NetState -> Request -> NetState * Outcome Response.

Lemma coerceNumberMinMax_Some lo hi v z :
  coerceNumberMinMax stringToNumber lo hi v = Some z <->
  coerceNumber stringToNumber v = Some z /\ lo <= z <= hi.
Proof.
  unfold coerceNumberMinMax.
  destruct (coerceNumber stringToNumber v) as [z' |]; [| split; [discriminate | tauto]].
  destruct ((lo <=? z') && (z' <=? hi)) eqn:Hb; zbool; split; intros Hz.
  - injection Hz as <-. tauto.
  - destruct Hz as [[= ->] _]. reflexivity.
  - discriminate.
  - destruct Hz as [[= ->] ?]. lia.
Qed.

Lemma stringMin_Some n v s :
  stringMin n v = Some s <-> v = VStr s /\ (n <= Js.utf16Length s)%nat.
Proof.
  unfold stringMin. destruct v; try (split; [discriminate | intros [[=] _]]).
  destruct (Nat.leb_spec n (Js.utf16Length s0)) as [Hn | Hn]; split; intros Hx.
  - injection Hx as <-. tauto.
  - destruct Hx as [[= ->] _]. reflexivity.
  - discriminate.
  - destruct Hx as [[= ->] ?]. lia.
Qed.

Lemma handleSubmit_requests values n :
  requestsOf (eventsOf (handleSubmit stringToNumber NetState serve values) n)
  = match formSchema stringToNumber values with
    | Some data =>
        [{| method := "POST"; url := "/api/lessons"; body := lessonJson data |}]
    | None => []
    end.
Proof.
  unfold eventsOf, handleSubmit.
  destruct (formSchema stringToNumber values) as [data |]; [| reflexivity].
  unfold onSubmit, createLesson_mutationFn, createLesson_onSuccess,
    createLesson_onError.
  run_handler.
  destruct (serve n _) as [n' [[[|] [j|m]]|msg]]; reflexivity.
Qed.

Lemma formSchema_accepted values data :
  formSchema stringToNumber values = Some data ->
  (in_subject values = VStr (subject data)
   /\ (2 <= Js.utf16Length (subject data))%nat)
  /\ (coerceNumber stringToNumber (in_dayOfWeek values) = Some (dayOfWeek data)
      /\ 0 <= dayOfWeek data <= 6)
  /\ (coerceNumber stringToNumber (in_startTimeMinutes values)
      = Some (startTimeMinutes data)
      /\ 0 <= startTimeMinutes data <= 1439)
  /\ (coerceNumber stringToNumber (in_durationMinutes values)
      = Some (durationMinutes data)
      /\ 30 <= durationMinutes data <= 240)
  /\ (withDefault (VNum 30) (coerceNumber stringToNumber)
        (in_attendanceWindowMinutes values)
      = Some (attendanceWindowMinutes data)
      /\ 5 <= attendanceWindowMinutes data <= 60).
Proof.
  intros Hparse. unfold formSchema in Hparse.
  destruct (coerceNumber stringToNumber (in_classId values)); [| discriminate].
  destruct (stringMin 2 (in_subject values)) as [s |] eqn:Hs; [| discriminate].
  destruct (coerceNumberMinMax stringToNumber 0 6 (in_dayOfWeek values))
    as [d |] eqn:Hd; [| discriminate].
  destruct (coerceNumberMinMax stringToNumber 0 (24 * 60 - 1)
              (in_startTimeMinutes values)) as [t |] eqn:Ht; [| discriminate].
  destruct (coerceNumberMinMax stringToNumber 30 240 (in_durationMinutes values))
    as [du |] eqn:Hdu; [| discriminate].
  destruct (stringOptional (in_location values)); [| discriminate].
  destruct (withDefault (VNum 30) (coerceNumberMinMax stringToNumber 5 60)
              (in_attendanceWindowMinutes values)) as [w |] eqn:Hw; [| discriminate].
  destruct (withDefault (VBool true) boolean (in_isActive values)); [| discriminate].
  injection Hparse as <-. cbn.
  apply stringMin_Some in Hs. apply coerceNumberMinMax_Some in Hd, Ht, Hdu.
  assert (Hw' : withDefault (VNum 30) (coerceNumber stringToNumber)
                  (in_attendanceWindowMinutes values) = Some w /\ 5 <= w <= 60).
  { unfold withDefault in *.
    destruct (in_attendanceWindowMinutes values);
      apply coerceNumberMinMax_Some in Hw; exact Hw. }
  repeat split; tauto || lia.
Qed.

(** C8: when the schema accepts the form values, the parsed lesson
    satisfies every bound (subject of [length] at least 2, day of week in
    0..6, start minute in 0..1439, duration in 30..240, attendance window
    in 5..60), each parsed number is the coerced form value, the window
    being 30 when it is omitted, and exactly one POST to [/api/lessons]
    carries the parsed lesson; when the schema rejects them, no request is
    sent. *)
Theorem createLesson_validation values n :
  match formSchema stringToNumber values with
  | Some data =>
      (in_subject values = VStr (subject data)
       /\ (2 <= Js.utf16Length (subject data))%nat)
      /\ (coerceNumber stringToNumber (in_dayOfWeek values) = Some (dayOfWeek data)
          /\ 0 <= dayOfWeek data <= 6)
      /\ (coerceNumber stringToNumber (in_startTimeMinutes values)
          = Some (startTimeMinutes data)
          /\ 0 <= startTimeMinutes data <= 1439)
      /\ (coerceNumber stringToNumber (in_durationMinutes values)
          = Some (durationMinutes data)
          /\ 30 <= durationMinutes data <= 240)
      /\ (withDefault (VNum 30) (coerceNumber stringToNumber)
            (in_attendanceWindowMinutes values)
          = Some (attendanceWindowMinutes data)
          /\ 5 <= attendanceWindowMinutes data <= 60)
      /\ requestsOf (eventsOf (handleSubmit stringToNumber NetState serve values) n)
         = [{| method := "POST"; url := "/api/lessons"; body := lessonJson data |}]
  | None =>
      requestsOf (eventsOf (handleSubmit stringToNumber NetState serve values) n) = []
  end.
Proof.
  rewrite handleSubmit_requests.
  destruct (formSchema stringToNumber values) as [data |] eqn:Hparse; [| reflexivity].
  pose proof (formSchema_accepted values data Hparse) as Hb.
  repeat split; tauto.
Qed.

(** A value outside its bounds makes the schema reject the form. *)
Lemma formSchema_out_of_range values :
  (exists z, coerceNumber stringToNumber (in_dayOfWeek values) = Some z
             /\ ~ 0 <= z <= 6)
  \/ (exists z, coerceNumber stringToNumber (in_startTimeMinutes values) = Some z
                /\ ~ 0 <= z <= 1439)
  \/ (exists z, coerceNumber stringToNumber (in_durationMinutes values) = Some z
                /\ ~ 30 <= z <= 240)
  \/ (exists z, withDefault (VNum 30) (coerceNumber stringToNumber)
                  (in_attendanceWindowMinutes values) = Some z
                /\ ~ 5 <= z <= 60)
  \/ (exists s, in_subject values = VStr s /\ (Js.utf16Length s < 2)%nat) ->
  formSchema stringToNumber values = None.
Proof.
  intros Hout.
  destruct (formSchema stringToNumber values) as [data |] eqn:Hparse; [| reflexivity].
  exfalso.
  destruct (formSchema_accepted values data Hparse)
    as ((Hs & Hl) & (Hd & ?) & (Ht & ?) & (Hdu & ?) & (Hw & ?)).
  destruct Hout as [(z & Hz & ?) | [(z & Hz & ?) | [(z & Hz & ?) | [(z & Hz & ?) | (s & Hz & ?)]]]];
    rewrite Hz in *; simplify_eq; lia.
Qed.

End CreateLessonForm.

(** The filled-in form for a Monday is accepted with the default window of
    30 minutes and posted; the same form for day 7 is rejected and nothing
    is sent. *)
Example filledForm_accepted :
  CreateLesson.formSchema CreateLesson.decimalToNumber (Examples.filledForm 1)
  = Some {| CreateLesson.classId := 3; CreateLesson.subject := "Physics";
            CreateLesson.dayOfWeek := 1; CreateLesson.startTimeMinutes := 480;
            CreateLesson.durationMinutes := 60;
            CreateLesson.location := Some "Lab 3";
            CreateLesson.attendanceWindowMinutes := 30;
            CreateLesson.isActive := true |}
  /\ map url
       (requestsOf
          (eventsOf
             (CreateLesson.handleSubmit CreateLesson.decimalToNumber unit
                Examples.alwaysOk (Examples.filledForm 1)) tt))
     = ["/api/lessons"].
Proof. split; vm_compute; reflexivity. Qed.

Example filledForm_rejected :
  CreateLesson.formSchema CreateLesson.decimalToNumber (Examples.filledForm 7) = None
  /\ eventsOf
       (CreateLesson.handleSubmit CreateLesson.decimalToNumber unit
          Examples.alwaysOk (Examples.filledForm 7)) tt
     = [].
Proof. split; vm_compute; reflexivity. Qed.

(** The length of a subject counts UTF-16 code units, not bytes: the
    one-letter subject "é" (two bytes) has length 1, is rejected and nothing
    is posted; two such letters are accepted; the single character U+1D11E
    (four bytes, a surrogate pair) has length 2. *)
Example subject_length_in_code_units :
  Js.utf16Length "é" = 1%nat
  /\ Js.utf16Length "𝄞" = 2%nat
  /\ Js.utf16Length "Physics" = 7%nat
  /\ CreateLesson.formSchema CreateLesson.decimalToNumber (Examples.subjectForm "é")
     = None
  /\ eventsOf
       (CreateLesson.handleSubmit CreateLesson.decimalToNumber unit
          Examples.alwaysOk (Examples.subjectForm "é")) tt
     = []
  /\ CreateLesson.subject
       <$> CreateLesson.formSchema CreateLesson.decimalToNumber
             (Examples.subjectForm "éé")
     = Some "éé".
Proof. repeat split; vm_compute; reflexivity. Qed.

(* ===================================================================== *)
(** * Further properties of the pages *)
(* ===================================================================== *)

(** ** Time and day labels *)

Import TimeFormat.

(** Checks a decidable property of every integer in [lo, lo + len) by
    running it. *)
Lemma forall_range (P : Z -> bool) lo len :
  forallb P (seqZ lo len) = true ->
  forall z, lo <= z < lo + len -> P z = true.
Proof.
  intros Hall z Hz. rewrite forallb_forall in Hall. apply Hall.
  apply list_elem_of_In, elem_of_seqZ. lia.
Qed.

Lemma two_digit_minutes m :
  0 <= m < 60 -> String.length (padStart 2 "0" (pretty m)) = 2%nat.
Proof.
  intros Hm.
  apply (forall_range
           (fun m => bool_decide (String.length (padStart 2 "0" (pretty m)) = 2%nat))
           0 60) in Hm; [| vm_compute; reflexivity].
  apply bool_decide_eq_true in Hm. exact Hm.
Qed.

(** X1: For every minute of the day (0 <= minutes < 1440)
    formatTimeFromMinutes returns h:mm AM/PM with 1 <= h <= 12, a two-
    character minute field, AM exactly when minutes < 720, and the minute
    count can be recovered from these parts as ((h mod 12) + 12 if PM) * 60 +
    mm. *)
Theorem formatTimeFromMinutes_day minutes :
  0 <= minutes < 1440 ->
  exists h m : Z,
    formatTimeFromMinutes minutes
    = pretty h +:+ ":" +:+ padStart 2 "0" (pretty m) +:+ " "
      +:+ (if minutes <? 720 then "AM" else "PM")
    /\ 1 <= h <= 12
    /\ 0 <= m <= 59
    /\ String.length (padStart 2 "0" (pretty m)) = 2%nat
    /\ minutes = (h mod 12 + (if minutes <? 720 then 0 else 12)) * 60 + m.
Proof.
  intros Hmin.
  exists (Js.orDefault (Some (Js.rem (minutes / 60) 12)) 12), (Js.rem minutes 60).
  unfold formatTimeFromMinutes, Js.rem. cbv zeta.
  rewrite !Z.rem_mod_nonneg by (try apply Z.div_pos; lia).
  assert (Hh : 0 <= minutes / 60 < 24) by (Z.div_mod_to_equations; lia).
  assert (Hm : 0 <= minutes mod 60 < 60) by (apply Z.mod_pos_bound; lia).
  assert (Hp : (12 <=? minutes / 60) = negb (minutes <? 720)).
  { destruct (Z.leb_spec 12 (minutes / 60)), (Z.ltb_spec minutes 720);
      try reflexivity; Z.div_mod_to_equations; lia. }
  rewrite Hp.
  split. { destruct (minutes <? 720); reflexivity. }
  unfold Js.orDefault.
  destruct (Z.eqb_spec ((minutes / 60) mod 12) 0) as [H0 | H0];
    destruct (Z.ltb_spec minutes 720);
    (split; [Z.div_mod_to_equations; lia |]);
    (split; [lia |]);
    (split; [apply two_digit_minutes; lia |]);
    Z.div_mod_to_equations; lia.
Qed.

Lemma formatTimeFromMinutes_day_witness :
  0 <= 810 < 1440
  /\ exists h m : Z,
      formatTimeFromMinutes 810
      = pretty h +:+ ":" +:+ padStart 2 "0" (pretty m) +:+ " "
        +:+ (if 810 <? 720 then "AM" else "PM")
      /\ 1 <= h <= 12
      /\ 0 <= m <= 59
      /\ String.length (padStart 2 "0" (pretty m)) = 2%nat
      /\ 810 = (h mod 12 + (if 810 <? 720 then 0 else 12)) * 60 + m.
Proof.
  split; [lia |]. apply (formatTimeFromMinutes_day 810). lia.
Defined.

Example formatTimeFromMinutes_samples :
  formatTimeFromMinutes 0 = "12:00 AM"
  /\ formatTimeFromMinutes 545 = "9:05 AM"
  /\ formatTimeFromMinutes 720 = "12:00 PM"
  /\ formatTimeFromMinutes 1439 = "11:59 PM".
Proof. repeat split; vm_compute; reflexivity. Qed.

(** Two entries of a duplicate-free list with the same image are equal. *)
Lemma NoDup_fmap_inj {A B} (f : A -> B) (l : list A) x y :
  NoDup (f <$> l) -> x ∈ l -> y ∈ l -> f x = f y -> x = y.
Proof.
  induction l as [| a l IH]; intros Hnd Hx Hy Hf; [inversion Hx |].
  rewrite fmap_cons in Hnd. apply NoDup_cons in Hnd as [Ha Hnd].
  apply elem_of_cons in Hx as [-> | Hx]; apply elem_of_cons in Hy as [-> | Hy].
  - reflexivity.
  - exfalso. apply Ha. rewrite Hf. apply list_elem_of_fmap_2. exact Hy.
  - exfalso. apply Ha. rewrite <- Hf. apply list_elem_of_fmap_2. exact Hx.
  - apply IH; assumption.
Qed.

Lemma formatTimeFromMinutes_day_NoDup :
  NoDup (formatTimeFromMinutes <$> seqZ 0 1440).
Proof.
  apply (bool_decide_unpack (NoDup (formatTimeFromMinutes <$> seqZ 0 1440))).
  vm_compute. exact I.
Qed.

(** X2: Within one day formatTimeFromMinutes is injective: two different
    minute counts in 0..1439 never get the same label. *)
Theorem formatTimeFromMinutes_inj a b :
  0 <= a < 1440 -> 0 <= b < 1440 ->
  formatTimeFromMinutes a = formatTimeFromMinutes b -> a = b.
Proof.
  intros Ha Hb Hab.
  apply (NoDup_fmap_inj formatTimeFromMinutes (seqZ 0 1440));
    [apply formatTimeFromMinutes_day_NoDup | | | exact Hab];
    apply elem_of_seqZ; lia.
Qed.

Lemma formatTimeFromMinutes_inj_witness :
  (0 <= 545 < 1440) /\ (0 <= 545 < 1440) /\ 545 = 545.
Proof.
  split; [lia |]. split; [lia |].
  apply (formatTimeFromMinutes_inj 545 545); [lia | lia | reflexivity].
Defined.

(** X3: An end time in the first hour after midnight (1440 <= minutes < 1500,
    e.g. a lesson starting 23:20 with 60 minutes) is rendered as 12:mm PM, the
    same label as the time twelve hours earlier (minutes - 720). *)
Theorem formatTimeFromMinutes_after_midnight minutes :
  1440 <= minutes < 1500 ->
  formatTimeFromMinutes minutes = formatTimeFromMinutes (minutes - 720)
  /\ exists m, 0 <= m < 60
               /\ formatTimeFromMinutes minutes
                  = "12:" +:+ padStart 2 "0" (pretty m) +:+ " PM".
Proof.
  intros Hmin. unfold formatTimeFromMinutes, Js.rem. cbv zeta.
  assert (H24 : minutes / 60 = 24) by (Z.div_mod_to_equations; lia).
  assert (H12 : (minutes - 720) / 60 = 12) by (Z.div_mod_to_equations; lia).
  assert (Hrem : Z.rem (minutes - 720) 60 = Z.rem minutes 60).
  { rewrite !Z.rem_mod_nonneg by lia. Z.div_mod_to_equations. lia. }
  rewrite H24, H12, Hrem. split; [reflexivity |].
  exists (Z.rem minutes 60). split; [| reflexivity].
  rewrite Z.rem_mod_nonneg by lia. apply Z.mod_pos_bound. lia.
Qed.

Lemma formatTimeFromMinutes_after_midnight_witness :
  1440 <= 1400 + 60 < 1500
  /\ formatTimeFromMinutes (1400 + 60) = formatTimeFromMinutes 740.
Proof.
  split; [lia |].
  exact (proj1 (formatTimeFromMinutes_after_midnight (1400 + 60) ltac:(lia))).
Defined.

(** X4: getDayOfWeekName returns the entry of the seven-name table for a day
    index in 0..6 (never empty, different for different days) and the empty
    string for every index outside 0..6. *)
Theorem getDayOfWeekName_table dayOfWeek :
  (0 <= dayOfWeek <= 6 ->
   days !! Z.to_nat dayOfWeek = Some (getDayOfWeekName dayOfWeek)
   /\ getDayOfWeekName dayOfWeek <> "")
  /\ (~ 0 <= dayOfWeek <= 6 -> getDayOfWeekName dayOfWeek = "")
  /\ (forall other, 0 <= dayOfWeek <= 6 -> 0 <= other <= 6 ->
                    getDayOfWeekName dayOfWeek = getDayOfWeekName other ->
                    dayOfWeek = other).
Proof.
  unfold getDayOfWeekName, arrayGet.
  split; [| split].
  - intros Hd. destruct (Z.ltb_spec dayOfWeek 0); [lia |].
    assert (Hc : dayOfWeek = 0 \/ dayOfWeek = 1 \/ dayOfWeek = 2 \/ dayOfWeek = 3
                 \/ dayOfWeek = 4 \/ dayOfWeek = 5 \/ dayOfWeek = 6) by lia.
    destruct Hc as [-> | [-> | [-> | [-> | [-> | [-> | ->]]]]]];
      split; (reflexivity || discriminate).
  - intros Hd. destruct (Z.ltb_spec dayOfWeek 0); [reflexivity |].
    assert (Hn : (7 <= Z.to_nat dayOfWeek)%nat) by lia.
    rewrite (lookup_ge_None_2 days (Z.to_nat dayOfWeek)) by exact Hn.
    reflexivity.
  - intros other Hd Ho.
    destruct (Z.ltb_spec dayOfWeek 0); [lia |].
    destruct (Z.ltb_spec other 0); [lia |].
    assert (Hc : dayOfWeek = 0 \/ dayOfWeek = 1 \/ dayOfWeek = 2 \/ dayOfWeek = 3
                 \/ dayOfWeek = 4 \/ dayOfWeek = 5 \/ dayOfWeek = 6) by lia.
    assert (Hc' : other = 0 \/ other = 1 \/ other = 2 \/ other = 3
                  \/ other = 4 \/ other = 5 \/ other = 6) by lia.
    destruct Hc as [-> | [-> | [-> | [-> | [-> | [-> | ->]]]]]];
      destruct Hc' as [-> | [-> | [-> | [-> | [-> | [-> | ->]]]]]];
      cbn; intros Heq; (reflexivity || discriminate Heq).
Qed.

Lemma getDayOfWeekName_table_witness :
  0 <= 3 <= 6 /\ getDayOfWeekName 3 <> "" /\ getDayOfWeekName 7 = "".
Proof.
  split; [lia |]. split.
  - destruct (getDayOfWeekName_table 3) as [Hin _]. apply Hin. lia.
  - destruct (getDayOfWeekName_table 7) as (_ & Hout & _). apply Hout. lia.
Defined.

(** ** Student lessons page: remaining time, badges and tabs *)

Import StudentLessonsView.

(** X5: Whenever canMarkAttendance holds for a lesson, getRemainingTime
    returns 'n minute(s) remaining' with n = startTimeMinutes + window -
    current minute, 0 <= n <= window (window = attendanceWindowMinutes || 15),
    in the singular exactly when n = 1. *)
Theorem getRemainingTime_open now lesson :
  canMarkAttendance now (Some lesson) = true ->
  exists n,
    n = startTimeMinutes lesson
        + Js.orDefault (attendanceWindowMinutes lesson) 15
        - currentMinutesOf now
    /\ 0 <= n <= Js.orDefault (attendanceWindowMinutes lesson) 15
    /\ getRemainingTime now (Some lesson)
       = pretty n +:+ " minute" +:+ (if n =? 1 then "" else "s") +:+ " remaining".
Proof.
  intros Hcan. apply canMarkAttendance_iff in Hcan as (Hday & Hwin & _).
  eexists. split; [reflexivity |]. split; [lia |].
  unfold getRemainingTime. cbv zeta.
  rewrite (proj2 (Z.eqb_eq _ _) Hday). cbn [negb].
  rewrite (proj2 (Z.ltb_ge _ _)) by lia.
  rewrite (proj2 (Z.ltb_ge _ _)) by lia.
  destruct (_ =? 1); reflexivity.
Qed.

Lemma getRemainingTime_open_witness :
  canMarkAttendance (Examples.at_time Examples.monday 10 14)
    (Some (Examples.mondayLesson None None)) = true
  /\ getRemainingTime (Examples.at_time Examples.monday 10 14)
       (Some (Examples.mondayLesson None None)) = "1 minute remaining".
Proof.
  split; [reflexivity |].
  destruct (getRemainingTime_open (Examples.at_time Examples.monday 10 14)
              (Examples.mondayLesson None None) eq_refl) as (n & -> & _ & ->).
  vm_compute. reflexivity.
Defined.

(** X6: For an unmarked lesson for which canMarkAttendance is false,
    getRemainingTime returns one of the three reasons 'Different day', 'Not
    yet started' or 'Window closed'. *)
Theorem getRemainingTime_closed now lesson :
  attendance lesson = None ->
  canMarkAttendance now (Some lesson) = false ->
  getRemainingTime now (Some lesson) = "Different day"
  \/ getRemainingTime now (Some lesson) = "Not yet started"
  \/ getRemainingTime now (Some lesson) = "Window closed".
Proof.
  intros Hnone Hcan. unfold canMarkAttendance in Hcan. unfold getRemainingTime.
  cbv zeta in *. rewrite Hnone in Hcan.
  destruct (negb (dayOfWeek lesson =? getDay now)); [tauto |].
  destruct (Z.ltb_spec (currentMinutesOf now) (startTimeMinutes lesson)); [tauto |].
  destruct (Z.ltb_spec
              (startTimeMinutes lesson
               + Js.orDefault (attendanceWindowMinutes lesson) 15)
              (currentMinutesOf now)); [tauto |].
  exfalso. rewrite andb_true_r in Hcan. apply andb_false_iff in Hcan.
  zbool. lia.
Qed.

Lemma getRemainingTime_closed_witness :
  attendance (Examples.mondayLesson None None) = None
  /\ canMarkAttendance (Examples.at_time Examples.monday 9 0)
       (Some (Examples.mondayLesson None None)) = false
  /\ (getRemainingTime (Examples.at_time Examples.monday 9 0)
         (Some (Examples.mondayLesson None None)) = "Different day"
      \/ getRemainingTime (Examples.at_time Examples.monday 9 0)
           (Some (Examples.mondayLesson None None)) = "Not yet started"
      \/ getRemainingTime (Examples.at_time Examples.monday 9 0)
           (Some (Examples.mondayLesson None None)) = "Window closed").
Proof.
  split; [reflexivity |]. split; [reflexivity |].
  apply (getRemainingTime_closed (Examples.at_time Examples.monday 9 0)
           (Examples.mondayLesson None None)); reflexivity.
Defined.

(** X7: On the Today tab, for an unmarked lesson of today that has started,
    once the attendance window has closed and until the lesson ends, the card
    footer is the disabled 'Not Yet Available' branch ('Attendance opens at
    <start>') and the badge shows the start time, although getRemainingTime
    reports 'Window closed'. *)
Theorem cardFooter_after_window now lesson :
  attendance lesson = None ->
  dayOfWeek lesson = getDay now ->
  startTimeMinutes lesson <= currentMinutesOf now ->
  startTimeMinutes lesson + Js.orDefault (attendanceWindowMinutes lesson) 15
    < currentMinutesOf now
    <= startTimeMinutes lesson + durationMinutes lesson ->
  cardFooter now lesson = NotYetAvailable
  /\ cardBadge now lesson
     = BadgeStartTime (formatTimeFromMinutes (startTimeMinutes lesson))
  /\ getRemainingTime now (Some lesson) = "Window closed".
Proof.
  intros Hnone Hday Hstarted Hm.
  assert (Hcan : canMarkAttendance now (Some lesson) = false).
  { destruct (canMarkAttendance now (Some lesson)) eqn:Hc; [| reflexivity].
    apply canMarkAttendance_iff in Hc. lia. }
  assert (Hpassed : hasTimePassed now
                      (startTimeMinutes lesson + durationMinutes lesson) = false).
  { unfold hasTimePassed. cbv zeta. apply Z.ltb_ge. lia. }
  unfold cardFooter, cardBadge. rewrite Hcan, Hnone, Hpassed.
  split; [reflexivity |]. split; [reflexivity |].
  unfold getRemainingTime. cbv zeta.
  rewrite (proj2 (Z.eqb_eq _ _) Hday). cbn [negb].
  rewrite (proj2 (Z.ltb_ge _ _)) by lia.
  rewrite (proj2 (Z.ltb_lt _ _)) by lia. reflexivity.
Qed.

Lemma cardFooter_after_window_witness :
  attendance (Examples.mondayLesson None None) = None
  /\ cardFooter (Examples.at_time Examples.monday 10 20)
       (Examples.mondayLesson None None) = NotYetAvailable
  /\ cardBadge (Examples.at_time Examples.monday 10 20)
       (Examples.mondayLesson None None) = BadgeStartTime "10:00 AM".
Proof.
  split; [reflexivity |].
  destruct (cardFooter_after_window (Examples.at_time Examples.monday 10 20)
              (Examples.mondayLesson None None))
    as (Hfooter & Hbadge & _);
    [reflexivity | reflexivity | vm_compute; discriminate
    | vm_compute; split; [reflexivity | discriminate] |].
  split; [exact Hfooter |]. rewrite Hbadge. vm_compute. reflexivity.
Defined.

(** X8: On the Today tab, for an unmarked lesson of today whose end time has
    passed while its attendance window is still open (window longer than the
    duration), the badge already says 'Absent' while the footer still offers
    the 'Mark Present' button. *)
Theorem cardBadge_absent_while_open now lesson :
  attendance lesson = None ->
  dayOfWeek lesson = getDay now ->
  startTimeMinutes lesson + durationMinutes lesson < currentMinutesOf now ->
  startTimeMinutes lesson <= currentMinutesOf now
    <= startTimeMinutes lesson + Js.orDefault (attendanceWindowMinutes lesson) 15 ->
  cardBadge now lesson = BadgeAbsent
  /\ cardFooter now lesson = MarkPresentButton.
Proof.
  intros Hnone Hday Hended Hwin.
  assert (Hcan : canMarkAttendance now (Some lesson) = true).
  { apply canMarkAttendance_iff. tauto. }
  assert (Hpassed : hasTimePassed now
                      (startTimeMinutes lesson + durationMinutes lesson) = true).
  { unfold hasTimePassed. cbv zeta. apply Z.ltb_lt. lia. }
  unfold cardBadge, cardFooter. rewrite Hnone, Hpassed, Hcan. split; reflexivity.
Qed.

Lemma cardBadge_absent_while_open_witness :
  attendance MoreExamples.shortLesson = None
  /\ cardBadge (Examples.at_time Examples.monday 10 40) MoreExamples.shortLesson
     = BadgeAbsent
  /\ cardFooter (Examples.at_time Examples.monday 10 40) MoreExamples.shortLesson
     = MarkPresentButton.
Proof.
  split; [reflexivity |].
  apply (cardBadge_absent_while_open (Examples.at_time Examples.monday 10 40)
           MoreExamples.shortLesson);
    [reflexivity | reflexivity | reflexivity
    | vm_compute; split; discriminate].
Defined.

(** *** The "Upcoming" and "Past" tabs *)

Lemma compareUpcoming_order a b :
  inOrder compareUpcoming a b <->
  dayOfWeek a < dayOfWeek b
  \/ (dayOfWeek a = dayOfWeek b /\ startTimeMinutes a <= startTimeMinutes b).
Proof.
  unfold inOrder, compareUpcoming.
  destruct (Z.eqb_spec (dayOfWeek a) (dayOfWeek b)); cbn [negb]; lia.
Qed.

Lemma comparePast_order a b :
  inOrder comparePast a b <->
  dayOfWeek b < dayOfWeek a
  \/ (dayOfWeek a = dayOfWeek b /\ startTimeMinutes b <= startTimeMinutes a).
Proof.
  unfold inOrder, comparePast.
  destruct (Z.eqb_spec (dayOfWeek a) (dayOfWeek b)); cbn [negb]; lia.
Qed.

#[local] Instance compareUpcoming_total : Total (inOrder compareUpcoming).
Proof. intros a b. rewrite !compareUpcoming_order. lia. Qed.

#[local] Instance compareUpcoming_trans : Transitive (inOrder compareUpcoming).
Proof. intros a b c. rewrite !compareUpcoming_order. lia. Qed.

#[local] Instance comparePast_total : Total (inOrder comparePast).
Proof. intros a b. rewrite !comparePast_order. lia. Qed.

#[local] Instance comparePast_trans : Transitive (inOrder comparePast).
Proof. intros a b c. rewrite !comparePast_order. lia. Qed.

Lemma StronglySorted_weaken {A} (R S : A -> A -> Prop) l :
  (forall x y, R x y -> S x y) -> StronglySorted R l -> StronglySorted S l.
Proof.
  intros HRS Hl. induction Hl as [| x l Hl IH Hx]; constructor.
  - exact IH.
  - eapply Forall_impl; [exact Hx |]. intros y. apply HRS.
Qed.

Lemma sortBy_filter_elem cmp (keep : Lesson -> bool) allLessons lesson :
  lesson ∈ sortBy cmp (List.filter keep allLessons) <->
  lesson ∈ allLessons /\ keep lesson = true.
Proof.
  unfold sortBy. rewrite merge_sort_Permutation.
  rewrite !list_elem_of_In. apply filter_In.
Qed.

(** X9: upcomingLessons is a permutation of the lessons accepted by
    isLessonInFuture, ordered by ascending dayOfWeek and, within a day,
    ascending startTimeMinutes; each entry is on a later weekday than today or
    starts later today (the sort is modelled as a merge sort with the page's
    comparator). *)
Theorem upcomingLessons_sorted now allLessons :
  StronglySorted
    (fun a b =>
       dayOfWeek a < dayOfWeek b
       \/ (dayOfWeek a = dayOfWeek b /\ startTimeMinutes a <= startTimeMinutes b))
    (upcomingLessons now allLessons)
  /\ upcomingLessons now allLessons ≡ₚ List.filter (isLessonInFuture now) allLessons
  /\ Forall
       (fun lesson =>
          getDay now < dayOfWeek lesson
          \/ (dayOfWeek lesson = getDay now
              /\ currentMinutesOf now < startTimeMinutes lesson))
       (upcomingLessons now allLessons).
Proof.
  split; [| split].
  - apply (StronglySorted_weaken (inOrder compareUpcoming)).
    + intros a b. apply compareUpcoming_order.
    + apply StronglySorted_merge_sort; apply _.
  - apply merge_sort_Permutation.
  - apply Forall_forall. intros lesson Hin.
    apply sortBy_filter_elem in Hin as [_ Hfut].
    unfold isLessonInFuture in Hfut. cbv zeta in Hfut.
    destruct (Z.ltb_spec (getDay now) (dayOfWeek lesson)); [tauto |].
    destruct (Z.eqb_spec (dayOfWeek lesson) (getDay now)); [| discriminate].
    destruct (Z.ltb_spec (currentMinutesOf now) (startTimeMinutes lesson));
      [tauto | discriminate].
Qed.

(** X10: pastLessons is a permutation of the lessons accepted by
    isLessonInPast, ordered by descending dayOfWeek and, within a day,
    descending startTimeMinutes; each entry is on an earlier weekday than
    today or ended earlier today. *)
Theorem pastLessons_sorted now allLessons :
  StronglySorted
    (fun a b =>
       dayOfWeek b < dayOfWeek a
       \/ (dayOfWeek a = dayOfWeek b /\ startTimeMinutes b <= startTimeMinutes a))
    (pastLessons now allLessons)
  /\ pastLessons now allLessons ≡ₚ List.filter (isLessonInPast now) allLessons
  /\ Forall
       (fun lesson =>
          dayOfWeek lesson < getDay now
          \/ (dayOfWeek lesson = getDay now
              /\ startTimeMinutes lesson + durationMinutes lesson
                 < currentMinutesOf now))
       (pastLessons now allLessons).
Proof.
  split; [| split].
  - apply (StronglySorted_weaken (inOrder comparePast)).
    + intros a b. apply comparePast_order.
    + apply StronglySorted_merge_sort; apply _.
  - apply merge_sort_Permutation.
  - apply Forall_forall. intros lesson Hin.
    apply sortBy_filter_elem in Hin as [_ Hpast].
    unfold isLessonInPast in Hpast. cbv zeta in Hpast.
    destruct (Z.ltb_spec (dayOfWeek lesson) (getDay now)); [tauto |].
    destruct (Z.eqb_spec (dayOfWeek lesson) (getDay now)); [| discriminate].
    destruct (Z.ltb_spec (startTimeMinutes lesson + durationMinutes lesson)
                (currentMinutesOf now)); [tauto | discriminate].
Qed.

(** X11: A lesson of nonnegative duration never appears in both the Upcoming
    and the Past tab; it appears in neither exactly in the remaining case,
    when it is scheduled for today's weekday and the current minute lies
    between its start and its end. *)
Theorem tabs_disjoint now allLessons lesson :
  0 <= durationMinutes lesson ->
  lesson ∈ allLessons ->
  ~ (lesson ∈ upcomingLessons now allLessons /\ lesson ∈ pastLessons now allLessons)
  /\ (dayOfWeek lesson = getDay now ->
      startTimeMinutes lesson <= currentMinutesOf now
        <= startTimeMinutes lesson + durationMinutes lesson ->
      (lesson ∉ upcomingLessons now allLessons)
      /\ (lesson ∉ pastLessons now allLessons))
  /\ (lesson ∈ upcomingLessons now allLessons
      \/ lesson ∈ pastLessons now allLessons
      \/ (dayOfWeek lesson = getDay now
          /\ startTimeMinutes lesson <= currentMinutesOf now
             <= startTimeMinutes lesson + durationMinutes lesson)).
Proof.
  intros Hdur Hin. unfold upcomingLessons, pastLessons.
  rewrite !sortBy_filter_elem.
  unfold isLessonInFuture, isLessonInPast. cbv zeta.
  destruct (Z.ltb_spec (getDay now) (dayOfWeek lesson));
    destruct (Z.ltb_spec (dayOfWeek lesson) (getDay now));
    destruct (Z.eqb_spec (dayOfWeek lesson) (getDay now));
    destruct (Z.ltb_spec (currentMinutesOf now) (startTimeMinutes lesson));
    destruct (Z.ltb_spec (startTimeMinutes lesson + durationMinutes lesson)
                (currentMinutesOf now));
    cbn; try lia; intuition (discriminate || lia).
Qed.

Lemma tabs_disjoint_witness :
  0 <= durationMinutes (MoreExamples.lessonAt 1 1 600)
  /\ ~ (MoreExamples.lessonAt 1 1 600
          ∈ upcomingLessons (Examples.at_time Examples.monday 9 0)
              [MoreExamples.lessonAt 1 1 600; MoreExamples.lessonAt 2 0 600]
        /\ MoreExamples.lessonAt 1 1 600
             ∈ pastLessons (Examples.at_time Examples.monday 9 0)
                 [MoreExamples.lessonAt 1 1 600; MoreExamples.lessonAt 2 0 600]).
Proof.
  split; [vm_compute; discriminate |].
  apply (tabs_disjoint (Examples.at_time Examples.monday 9 0)
           [MoreExamples.lessonAt 1 1 600; MoreExamples.lessonAt 2 0 600]
           (MoreExamples.lessonAt 1 1 600)).
  - vm_compute; discriminate.
  - apply elem_of_cons. left. reflexivity.
Defined.

(** On a Monday at 09:00 the upcoming tab lists the lessons of today and of
    later weekdays by day and start time; the lesson of Sunday is past. *)
Example tabs_on_monday :
  let now := Examples.at_time Examples.monday 9 0 in
  let all := [MoreExamples.lessonAt 1 3 480; MoreExamples.lessonAt 2 0 600;
              MoreExamples.lessonAt 3 1 840; MoreExamples.lessonAt 4 1 600;
              MoreExamples.lessonAt 5 1 480] in
  map id (upcomingLessons now all) = [4; 3; 1]
  /\ map id (pastLessons now all) = [2].
Proof. cbv zeta. split; vm_compute; reflexivity. Qed.

(** ** Student dashboard: rows and the marking dialog *)

Import StudentDashboardView.

(** X12: On the student dashboard a click on a lesson row selects the lesson
    (opening the marking dialog) exactly when the row displays the 'Mark
    Attendance' button. *)
Theorem rowSelectsLesson_iff_button now attendanceRecords userId lesson :
  rowSelectsLesson now attendanceRecords userId lesson = true <->
  rowStatus now attendanceRecords userId lesson = MarkAttendanceButton.
Proof.
  unfold rowSelectsLesson, rowStatus.
  destruct (hasMarkedAttendance attendanceRecords userId (Some lesson));
    destruct (isAttendanceWindowOpen now (Some lesson)); cbn.
  - split; discriminate.
  - split; discriminate.
  - tauto.
  - destruct (StudentDashboard.hasTimePassed now _); split; discriminate.
Qed.

Lemma valueOr_truthy value fallback :
  fallback <> "" -> jsonTruthy (valueOr value fallback) = true.
Proof.
  intros Hfb. unfold valueOr.
  destruct (jsonTruthy value) eqn:Hv; [exact Hv |].
  cbn. apply negb_true_iff, String.eqb_neq. exact Hfb.
Qed.

(** X30: hasMarkedAttendance(lesson) is true exactly when some attendance
    record has this lesson's id and the id of the signed-in user; in
    particular it is false when no user is signed in or the record list is
    empty. *)
Theorem hasMarkedAttendance_exactly attendanceRecords userId lesson :
  (hasMarkedAttendance attendanceRecords userId (Some lesson) = true <->
   exists record u,
     In record attendanceRecords /\ userId = Some u
     /\ ar_lessonId record = id lesson /\ ar_studentId record = u)
  /\ hasMarkedAttendance attendanceRecords None (Some lesson) = false
  /\ hasMarkedAttendance [] userId (Some lesson) = false
  /\ hasMarkedAttendance attendanceRecords userId None = false.
Proof.
  split; [apply hasMarkedAttendance_iff |].
  split; [| split; reflexivity].
  destruct (hasMarkedAttendance attendanceRecords None (Some lesson)) eqn:Hm;
    [| reflexivity].
  apply hasMarkedAttendance_iff in Hm as (r & u & _ & Hu & _). discriminate Hu.
Qed.

Section DashboardRuns.

Variable NetState : Type.
Variable serve : NetState -> Request -> NetState * Outcome Response.

Lemma markAttendance_run userId lessonId n :
  let run := markAttendance NetState serve userId lessonId in
  requestsOf (eventsOf run n) = [selfMarkRequest userId lessonId]
  /\ if match snd (serve n (selfMarkRequest userId lessonId)) with
        | Returned response => ok response
        | Threw _ => false
        end
     then outcomeOf run n
          = Returned [{| delay := 2000;
                         callback := [EvSetState "selectedLesson" JNull;
                                      EvSetState "attendanceMarked" (JBool false)] |}]
          /\ stateUpdatesOf (eventsOf run n)
             = [("attendanceError", JStr ""); ("attendanceMarked", JBool true)]
     else outcomeOf run n = Returned []
          /\ exists shown,
              jsonTruthy shown = true
              /\ stateUpdatesOf (eventsOf run n)
                 = [("attendanceError", JStr ""); ("attendanceError", shown)].
Proof.
  cbv zeta. unfold eventsOf, outcomeOf, markAttendance, selfMarkRequest.
  run_handler.
  destruct (serve n _) as [n' [[[|] [j|m]]|msg]]; cbn;
    try (destruct j as [| b | z | str | fields]; cbn;
         try (destruct (lookupField "message" fields); cbn));
    (split; [reflexivity |]); try (split; reflexivity);
    (split; [reflexivity |]); eexists; (split; [| reflexivity]);
    try reflexivity; apply valueOr_truthy; discriminate.
Qed.

(** X13: The dashboard dialog's markAttendance never rejects and sends exactly
    one request per confirmed lesson (none when no lesson is selected); that
    request is identical to the one the student lessons page sends for the
    same user and lesson: POST /api/attendance with lessonId, studentId and
    status 'present'. *)
Theorem dashboard_sends_same_request userId selectedLesson n :
  requestsOf (eventsOf (confirmAttendance NetState serve userId selectedLesson) n)
  = requestsOf
      (eventsOf
         (StudentLessons.handleMarkAttendance NetState serve userId selectedLesson) n)
  /\ (exists timers,
         outcomeOf (confirmAttendance NetState serve userId selectedLesson) n
         = Returned timers)
  /\ length
       (requestsOf (eventsOf (confirmAttendance NetState serve userId selectedLesson) n))
     = match selectedLesson with Some _ => 1%nat | None => 0%nat end.
Proof.
  rewrite handleMarkAttendance_requests.
  destruct selectedLesson as [lesson |]; cbn [confirmAttendance].
  - destruct (markAttendance_run userId (id lesson) n) as [Hreq Hout].
    cbv zeta in Hreq, Hout. rewrite Hreq.
    split; [reflexivity |]. split; [| reflexivity].
    destruct (match snd (serve n (selfMarkRequest userId (id lesson))) with
              | Returned response => ok response
              | Threw _ => false
              end); destruct Hout as [-> _]; eexists; reflexivity.
  - split; [reflexivity |]. split; [eexists; reflexivity | reflexivity].
Qed.

(** X14: Dashboard markAttendance: when the response is ok it sets
    attendanceMarked and leaves one 2000 ms timer that closes the dialog and
    resets the flag; in every other case (non-ok response, unreadable body,
    network error) it schedules nothing and ends by setting attendanceError to
    a truthy value, so an error is always displayed. *)
Theorem dashboard_markAttendance_outcome userId lessonId n :
  let run := markAttendance NetState serve userId lessonId in
  if match snd (serve n (selfMarkRequest userId lessonId)) with
     | Returned response => ok response
     | Threw _ => false
     end
  then outcomeOf run n
       = Returned [{| delay := 2000;
                      callback := [EvSetState "selectedLesson" JNull;
                                   EvSetState "attendanceMarked" (JBool false)] |}]
       /\ stateUpdatesOf (eventsOf run n)
          = [("attendanceError", JStr ""); ("attendanceMarked", JBool true)]
  else outcomeOf run n = Returned []
       /\ exists shown,
           jsonTruthy shown = true
           /\ stateUpdatesOf (eventsOf run n)
              = [("attendanceError", JStr ""); ("attendanceError", shown)].
Proof. exact (proj2 (markAttendance_run userId lessonId n)). Qed.

End DashboardRuns.

(** ** Bulk attendance: loading, toggling and counting *)

Lemma objectValues_length (data : gmap N Status) :
  length (BulkAttendanceView.objectValues data) = length (objectKeys data).
Proof.
  unfold BulkAttendanceView.objectValues.
  assert (Hall : forall k, k ∈ objectKeys data -> is_Some (data !! k))
    by (intros k; apply objectKeys_marked).
  induction (objectKeys data) as [| k keys IH]; [reflexivity |].
  destruct (Hall k) as [status Hk]; [apply elem_of_cons; tauto |].
  cbn. rewrite Hk. cbn. f_equal. apply IH.
  intros k' Hk'. apply Hall, elem_of_cons. tauto.
Qed.

Lemma present_absent_split (statuses : list Status) :
  (length (List.filter BulkAttendanceView.isPresent statuses)
   + length (List.filter BulkAttendanceView.isAbsent statuses))%nat
  = length statuses.
Proof.
  induction statuses as [| [|] statuses IH]; cbn; lia.
Qed.

Lemma counts_sum st :
  BulkAttendanceView.presentCount st + BulkAttendanceView.absentCount st
  = BulkAttendanceView.markedCount st
  /\ BulkAttendanceView.markedCount st = Z.of_nat (size (attendanceData st)).
Proof.
  unfold BulkAttendanceView.presentCount, BulkAttendanceView.absentCount,
    BulkAttendanceView.markedCount.
  pose proof (present_absent_split
                (BulkAttendanceView.objectValues (attendanceData st))) as Hsplit.
  rewrite objectValues_length in Hsplit.
  rewrite objectKeys_length in *. lia.
Qed.


Lemma initialData_fold attendanceRecords students (acc : gmap N Status) k :
  foldl
    (fun initialData student =>
       match BulkAttendanceView.findRecord attendanceRecords student with
       | Some record =>
           <[BulkAttendanceView.studentId student := ar_status record]> initialData
       | None => initialData
       end)
    acc students !! k
  = if bool_decide (k ∈ map BulkAttendanceView.studentId students)
    then match List.find (fun r => ar_studentId r =? Z.of_N k) attendanceRecords with
         | Some record => Some (ar_status record)
         | None => acc !! k
         end
    else acc !! k.
Proof.
  revert acc. induction students as [| student students IH]; intros acc.
  - reflexivity.
  - cbn [foldl map]. rewrite IH. clear IH.
    unfold BulkAttendanceView.findRecord.
    destruct (decide (BulkAttendanceView.studentId student = k)) as [-> | Hne].
    + rewrite (bool_decide_eq_true_2 (_ ∈ _ :: _)) by (apply elem_of_cons; tauto).
      destruct (List.find _ attendanceRecords) as [record |] eqn:Hfind.
      * case_bool_decide; [reflexivity | apply lookup_insert_eq].
      * case_bool_decide; reflexivity.
    + assert (Hiff : k ∈ BulkAttendanceView.studentId student
                         :: map BulkAttendanceView.studentId students
                     <-> k ∈ map BulkAttendanceView.studentId students).
      { rewrite elem_of_cons. split; [intros [-> | H]; [contradiction | exact H] | tauto]. }
      rewrite (bool_decide_ext _ _ Hiff).
      destruct (List.find (fun r => ar_studentId r
                                    =? Z.of_N (BulkAttendanceView.studentId student))
                  attendanceRecords) as [record |]; [| reflexivity].
      rewrite lookup_insert_ne by exact Hne. reflexivity.
Qed.

(** X16: The object built by the loading effect maps a student id to the
    status of the first attendance record with that studentId when the id
    belongs to a listed student, and has no entry for any other id or for a
    listed student without record. *)
Theorem initialData_lookup attendanceRecords students k :
  BulkAttendanceView.initialData attendanceRecords students !! k
  = if bool_decide (k ∈ map BulkAttendanceView.studentId students)
    then ar_status
           <$> List.find (fun r => ar_studentId r =? Z.of_N k) attendanceRecords
    else None.
Proof.
  unfold BulkAttendanceView.initialData. rewrite initialData_fold.
  rewrite lookup_empty.
  destruct (List.find _ attendanceRecords); reflexivity.
Qed.





(** After loading one absence and ticking one student present, the sheet
    counts one present, one absent and one unmarked student. *)
Example counts_after_load_and_toggle :
  let st := toggleAttendance
              (BulkAttendanceView.loadAttendance MoreExamples.emptySheet
                 MoreExamples.existingRecords MoreExamples.classList)
              41%N present in
  BulkAttendanceView.presentCount st = 1
  /\ BulkAttendanceView.absentCount st = 1
  /\ BulkAttendanceView.unmarkedCount st MoreExamples.classList = 1.
Proof. cbv zeta. repeat split; vm_compute; reflexivity. Qed.

(** X18: toggleAttendance sets the student's row to the given status and
    leaves all other rows alone; markedCount grows by one for a previously
    unmarked student and stays the same otherwise, and ticking the same box
    again changes nothing, so a mark can be switched but never removed. *)
Theorem toggleAttendance_marks st student status :
  BulkAttendanceView.rowStatus
    (toggleAttendance st (BulkAttendanceView.studentId student) status) student
  = Some status
  /\ (forall other,
         BulkAttendanceView.studentId other <> BulkAttendanceView.studentId student ->
         BulkAttendanceView.rowStatus
           (toggleAttendance st (BulkAttendanceView.studentId student) status) other
         = BulkAttendanceView.rowStatus st other)
  /\ BulkAttendanceView.markedCount
       (toggleAttendance st (BulkAttendanceView.studentId student) status)
     = BulkAttendanceView.markedCount st
       + match BulkAttendanceView.rowStatus st student with
         | Some _ => 0
         | None => 1
         end
  /\ attendanceData
       (toggleAttendance
          (toggleAttendance st (BulkAttendanceView.studentId student) status)
          (BulkAttendanceView.studentId student) status)
     = attendanceData
         (toggleAttendance st (BulkAttendanceView.studentId student) status).
Proof.
  unfold BulkAttendanceView.rowStatus. cbn.
  split; [apply lookup_insert_eq |].
  split. { intros other Hne. apply lookup_insert_ne. congruence. }
  split.
  - destruct (counts_sum st) as [_ ->].
    destruct (counts_sum
                (toggleAttendance st (BulkAttendanceView.studentId student) status))
      as [_ ->].
    cbn. destruct (attendanceData st !! BulkAttendanceView.studentId student)
      as [old |] eqn:Hold.
    + rewrite map_size_insert_Some by eauto. lia.
    + rewrite map_size_insert_None by exact Hold. lia.
  - apply insert_insert_eq.
Qed.

(** X19: When the loading effect runs with a non-empty record list, every
    listed student's row becomes the stored status of that student's first
    record, or unmarked when there is none, whatever the sheet held before:
    ticks that were not saved are dropped. *)
Theorem loadAttendance_overwrites st attendanceRecords students student :
  attendanceRecords <> [] ->
  student ∈ students ->
  BulkAttendanceView.rowStatus
    (BulkAttendanceView.loadAttendance st attendanceRecords students) student
  = ar_status <$> BulkAttendanceView.findRecord attendanceRecords student.
Proof.
  intros Hrecords Hin.
  unfold BulkAttendanceView.rowStatus, BulkAttendanceView.loadAttendance.
  destruct attendanceRecords as [| r records]; [contradiction |].
  destruct students as [| s0 students]; [inversion Hin |].
  cbn [length Nat.ltb Nat.leb andb attendanceData].
  rewrite initialData_lookup.
  rewrite bool_decide_eq_true_2
    by (apply list_elem_of_In, in_map, list_elem_of_In; exact Hin).
  reflexivity.
Qed.

Lemma loadAttendance_overwrites_witness :
  MoreExamples.existingRecords <> []
  /\ BulkAttendanceView.rowStatus
       (toggleAttendance MoreExamples.emptySheet 41%N present)
       {| BulkAttendanceView.studentId := 41%N;
          BulkAttendanceView.fullName := "Ada Obi";
          BulkAttendanceView.username := "ada" |}
     = Some present
  /\ BulkAttendanceView.rowStatus
       (BulkAttendanceView.loadAttendance
          (toggleAttendance MoreExamples.emptySheet 41%N present)
          MoreExamples.existingRecords MoreExamples.classList)
       {| BulkAttendanceView.studentId := 41%N;
          BulkAttendanceView.fullName := "Ada Obi";
          BulkAttendanceView.username := "ada" |}
     = None.
Proof.
  split; [discriminate |]. split; [reflexivity |].
  rewrite (loadAttendance_overwrites
             (toggleAttendance MoreExamples.emptySheet 41%N present)
             MoreExamples.existingRecords MoreExamples.classList).
  - reflexivity.
  - discriminate.
  - apply elem_of_cons. left. reflexivity.
Defined.

Section BulkReload.

Variable NetState : Type.
Variable serve : NetState -> Request -> NetState * Outcome Response.

(** X20: After the sheet was loaded from existing records, saveAllAttendance
    (with a lesson selected) sends a POST for every listed student who already
    has a record, carrying the recorded status, even if the teacher changed
    nothing. *)
Theorem saveAllAttendance_after_load st attendanceRecords students student record n :
  Js.truthy (lessonId st) = true ->
  student ∈ students ->
  BulkAttendanceView.findRecord attendanceRecords student = Some record ->
  {| method := "POST";
     url := attendanceUrl (forceAttendance st);
     body := attendanceBody (lessonId st)
               (Z.of_N (BulkAttendanceView.studentId student))
               (Some (ar_status record)) |}
  ∈ requestsOf
      (eventsOf
         (saveAllAttendance NetState serve
            (BulkAttendanceView.loadAttendance st attendanceRecords students)) n).
Proof.
  intros Hlesson Hin Hfind.
  assert (Hload : BulkAttendanceView.loadAttendance st attendanceRecords students
                  = {| lessonId := lessonId st;
                       forceAttendance := forceAttendance st;
                       attendanceData :=
                         BulkAttendanceView.initialData attendanceRecords students |}).
  { unfold BulkAttendanceView.loadAttendance.
    destruct attendanceRecords; [discriminate Hfind |].
    destruct students; [inversion Hin | reflexivity]. }
  rewrite Hload. clear Hload.
  set (st' := {| lessonId := lessonId st; forceAttendance := forceAttendance st;
                 attendanceData :=
                   BulkAttendanceView.initialData attendanceRecords students |}).
  assert (Hlook : attendanceData st' !! BulkAttendanceView.studentId student
                  = Some (ar_status record)).
  { cbn. rewrite initialData_lookup.
    rewrite bool_decide_eq_true_2
      by (apply list_elem_of_In, in_map, list_elem_of_In; exact Hin).
    unfold BulkAttendanceView.findRecord in Hfind. rewrite Hfind. reflexivity. }
  unfold eventsOf.
  destruct (saveAllAttendance_run NetState serve st' {| net := n; trace := [] |})
    as (evs & succ & w1 & Hrun & _ & Ht & _ & Hr & _).
  rewrite Hrun. cbn [snd]. rewrite Ht. unfold requestsOf in *. cbn.
  rewrite omap_app, Hr. cbn. rewrite app_nil_r.
  change (lessonId st') with (lessonId st). rewrite Hlesson.
  apply list_elem_of_In, in_map_iff.
  exists (BulkAttendanceView.studentId student). split.
  - unfold attendanceRequest. cbn in Hlook |- *. rewrite Hlook. reflexivity.
  - apply list_elem_of_In, objectKeys_marked. cbn in Hlook |- *.
    rewrite Hlook. eauto.
Qed.

(** X21: The last toast of saveAllAttendance is the summary with successful =
    number of successful responses and failed = marked students - successful;
    its variant is 'default' exactly when successful > 0 and failed = 0, so
    saving an empty sheet shows 'Successfully marked 0 students' as a
    destructive toast. *)
Theorem saveAllAttendance_toast st n :
  let evs := eventsOf (saveAllAttendance NetState serve st) n in
  let successful :=
    Z.of_nat (length (filter (fun r => succeeded r = true) (settledOf evs))) in
  let failed := Z.of_nat (size (attendanceData st)) - successful in
  last (toastsOf evs) = Some (savedToast successful failed)
  /\ 0 <= failed
  /\ (variant (savedToast successful failed) = VDefault <->
      0 < successful /\ failed = 0)
  /\ (size (attendanceData st) = 0%nat ->
      variant (savedToast successful failed) = VDestructive
      /\ description (savedToast successful failed) = "Successfully marked 0 students").
Proof.
  cbv zeta. unfold eventsOf.
  destruct (saveAllAttendance_run NetState serve st {| net := n; trace := [] |})
    as (evs & succ & w1 & Hrun & Hle & Ht & _ & _ & _ & _ & Hc & _).
  rewrite Hrun. cbn [snd]. rewrite Ht.
  unfold toastsOf, settledOf in *. cbn. rewrite !omap_app. cbn.
  rewrite app_nil_r, Hc.
  split. { rewrite (last_snoc _ (omap _ evs)). reflexivity. }
  split; [lia |].
  split.
  - unfold savedToast. cbn [variant].
    destruct (Z.ltb_spec 0 (Z.of_nat succ));
      destruct (Z.eqb_spec (Z.of_nat (size (attendanceData st)) - Z.of_nat succ) 0);
      cbn; split; intros H'; try discriminate; try tauto; lia.
  - intros Hempty. rewrite Hempty in *.
    assert (succ = 0%nat) as -> by lia. split; reflexivity.
Qed.

End BulkReload.

Lemma saveAllAttendance_after_load_witness :
  Js.truthy (lessonId MoreExamples.emptySheet) = true
  /\ {| method := "POST"; url := "/api/attendance";
        body := JObj [("lessonId", JNum 7); ("studentId", JNum 42);
                      ("status", JStr "absent")] |}
     ∈ requestsOf
         (eventsOf
            (saveAllAttendance unit Examples.alwaysOk
               (BulkAttendanceView.loadAttendance MoreExamples.emptySheet
                  MoreExamples.existingRecords MoreExamples.classList)) tt).
Proof.
  split; [reflexivity |].
  apply (saveAllAttendance_after_load unit Examples.alwaysOk
           MoreExamples.emptySheet MoreExamples.existingRecords
           MoreExamples.classList
           {| BulkAttendanceView.studentId := 42%N;
              BulkAttendanceView.fullName := "Ben Kato";
              BulkAttendanceView.username := "ben" |}
           {| ar_lessonId := 7; ar_studentId := 42; ar_status := absent;
              markedAtTime := None |} tt).
  - reflexivity.
  - apply elem_of_cons. right. apply elem_of_cons. left. reflexivity.
  - reflexivity.
Defined.

(** X22: For a lesson with dayOfWeek in 0..6 the 'Today' badge of the bulk
    page (isLessonToday) is shown exactly when the lesson's dayOfWeek is
    today's day of week. *)
Theorem isLessonToday_iff now lesson :
  0 <= dayOfWeek lesson <= 6 ->
  BulkAttendanceView.isLessonToday now (Some lesson) = true <->
  dayOfWeek lesson = getDay now.
Proof.
  intros Hd. pose proof (getDay_range now) as Hn.
  unfold BulkAttendanceView.isLessonToday, calculateLessonDate. cbv zeta.
  unfold Js.rem. rewrite Z.rem_mod_nonneg by lia.
  rewrite clearTime_addDays, dayNumber_midnight, Z.eqb_eq.
  split; intros H'; Z.div_mod_to_equations; lia.
Qed.

Lemma isLessonToday_iff_witness :
  0 <= dayOfWeek (Examples.mondayLesson None None) <= 6
  /\ BulkAttendanceView.isLessonToday (Examples.at_time Examples.monday 23 59)
       (Some (Examples.mondayLesson None None)) = true.
Proof.
  split; [vm_compute; split; discriminate |].
  apply (isLessonToday_iff (Examples.at_time Examples.monday 23 59)
           (Examples.mondayLesson None None)).
  - vm_compute; split; discriminate.
  - reflexivity.
Defined.

(** ** Create lesson: what the controls of the form produce *)

Section CreateLessonControlsProps.

Import CreateLesson CreateLessonControls.

Variable stringToNumber : string -> JsNumber.
Variable NetState : Type.
Variable serve : NetState -> Request -> NetState * Outcome Response.

(** X23: Whatever the system settings, the untouched create-lesson form is
    rejected by the schema and submitting it sends nothing; it stays rejected
    after a class is chosen as long as the subject is still empty. *)
Theorem defaultValues_rejected settings n :
  formSchema stringToNumber (defaultValues settings) = None
  /\ eventsOf (handleSubmit stringToNumber NetState serve (defaultValues settings)) n
     = []
  /\ (forall classId,
         formSchema stringToNumber
           {| in_classId := classId;
              in_subject := in_subject (defaultValues settings);
              in_dayOfWeek := in_dayOfWeek (defaultValues settings);
              in_startTimeMinutes := in_startTimeMinutes (defaultValues settings);
              in_durationMinutes := in_durationMinutes (defaultValues settings);
              in_location := in_location (defaultValues settings);
              in_attendanceWindowMinutes :=
                in_attendanceWindowMinutes (defaultValues settings);
              in_isActive := in_isActive (defaultValues settings) |}
         = None).
Proof.
  split; [reflexivity |]. split; [reflexivity |].
  intros classId. unfold formSchema. cbn.
  destruct (coerceNumber stringToNumber classId); reflexivity.
Qed.

Lemma sliderValues_range min max step v :
  0 <= step -> v ∈ sliderValues min max step -> min <= v <= max.
Proof.
  intros Hstep Hv. unfold sliderValues in Hv.
  apply list_elem_of_In, filter_In in Hv as [Hin Hmax].
  apply in_map_iff in Hin as (k & <- & Hk).
  apply list_elem_of_In, elem_of_seqZ in Hk. zbool. nia.
Qed.

Lemma startTime_options h m :
  h ∈ hourOptions -> m ∈ minuteOptions ->
  0 <= h <= 23 /\ 0 <= m <= 45.
Proof.
  unfold hourOptions, minuteOptions. rewrite elem_of_seqZ. intros Hh Hm.
  split; [lia |].
  repeat (apply elem_of_cons in Hm as [-> | Hm]; [lia |]). inversion Hm.
Qed.

(** X24: For every hour of the hour select (0..23) and minute of the minute
    select (0, 15, 30, 45), updateStartTimeMinutes stores hours * 60 +
    minutes, which passes the schema's 0..1439 bound, splits back into the
    same hour and minute, and is shown by formatMinutes as h:mm. *)
Theorem updateStartTimeMinutes_in_range hours minutes values :
  hours ∈ hourOptions -> minutes ∈ minuteOptions ->
  coerceNumberMinMax stringToNumber 0 (24 * 60 - 1)
    (in_startTimeMinutes (updateStartTimeMinutes hours minutes values))
  = Some (hours * 60 + minutes)
  /\ (hours * 60 + minutes) / 60 = hours
  /\ Js.rem (hours * 60 + minutes) 60 = minutes
  /\ formatMinutes (hours * 60 + minutes)
     = pretty hours +:+ ":" +:+ padStart 2 "0" (pretty minutes).
Proof.
  intros Hh Hm. destruct (startTime_options hours minutes Hh Hm) as [Hhr Hmr].
  assert (Hdiv : (hours * 60 + minutes) / 60 = hours)
    by (Z.div_mod_to_equations; lia).
  assert (Hrem : Js.rem (hours * 60 + minutes) 60 = minutes).
  { unfold Js.rem. rewrite Z.rem_mod_nonneg by lia. Z.div_mod_to_equations. lia. }
  split.
  { apply coerceNumberMinMax_Some. split; [reflexivity | lia]. }
  split; [exact Hdiv |]. split; [exact Hrem |].
  unfold formatMinutes. cbv zeta. rewrite Hdiv, Hrem. reflexivity.
Qed.

Lemma coerceNumberMinMax_num lo hi z :
  lo <= z <= hi -> coerceNumberMinMax stringToNumber lo hi (VNum z) = Some z.
Proof. intros Hz. apply coerceNumberMinMax_Some. split; [reflexivity | exact Hz]. Qed.

(** X25: A form whose class coerces to a number, whose subject has length at
    least 2 (in UTF-16 code units, as zod counts) and whose day, start time,
    duration and attendance window come from the page's selects and sliders is
    accepted by the schema with exactly these values, and submitting it sends
    exactly one POST to /api/lessons. *)
Theorem formSchema_accepts_controls values c s d h m du w n :
  coerceNumber stringToNumber (in_classId values) = Some c ->
  in_subject values = VStr s -> (2 <= Js.utf16Length s)%nat ->
  in_dayOfWeek values = VNum d -> d ∈ dayOptions ->
  in_startTimeMinutes values = VNum (h * 60 + m) ->
  h ∈ hourOptions -> m ∈ minuteOptions ->
  in_durationMinutes values = VNum du -> du ∈ sliderValues 30 240 5 ->
  in_attendanceWindowMinutes values = VNum w -> w ∈ sliderValues 5 60 5 ->
  stringOptional (in_location values) <> None ->
  boolean (in_isActive values) <> None ->
  exists data,
    formSchema stringToNumber values = Some data
    /\ classId data = c /\ subject data = s /\ dayOfWeek data = d
    /\ startTimeMinutes data = h * 60 + m
    /\ durationMinutes data = du /\ attendanceWindowMinutes data = w
    /\ requestsOf (eventsOf (handleSubmit stringToNumber NetState serve values) n)
       = [{| method := "POST"; url := "/api/lessons"; body := lessonJson data |}].
Proof.
  intros Hc Hs Hlen Hd Hday Hst Hh Hm Hdu Hdur Hw Hwin Hloc Hact.
  destruct (startTime_options h m Hh Hm) as [Hhr Hmr].
  apply (sliderValues_range 30 240 5) in Hdur; [| lia].
  apply (sliderValues_range 5 60 5) in Hwin; [| lia].
  unfold dayOptions in Hday. apply elem_of_seqZ in Hday. cbn in Hday.
  rewrite handleSubmit_requests.
  unfold formSchema. rewrite Hc, Hs, Hd, Hst, Hdu, Hw.
  rewrite (proj2 (stringMin_Some stringToNumber 2 (VStr s) s)) by (split; [reflexivity | exact Hlen]).
  rewrite (coerceNumberMinMax_num 0 6 d) by lia.
  rewrite (coerceNumberMinMax_num 0 (24 * 60 - 1) (h * 60 + m)) by lia.
  rewrite (coerceNumberMinMax_num 30 240 du) by lia.
  cbn [withDefault]. rewrite (coerceNumberMinMax_num 5 60 w) by lia.
  destruct (stringOptional (in_location values)) as [l |]; [| contradiction].
  destruct (in_isActive values); try contradiction; cbn;
    eexists; repeat split; reflexivity.
Qed.

End CreateLessonControlsProps.

Lemma updateStartTimeMinutes_in_range_witness :
  14 ∈ CreateLessonControls.hourOptions
  /\ 45 ∈ CreateLessonControls.minuteOptions
  /\ formatMinutes (14 * 60 + 45) = "14:45".
Proof.
  assert (Hh : 14 ∈ CreateLessonControls.hourOptions)
    by (apply elem_of_seqZ; lia).
  assert (Hm : 45 ∈ CreateLessonControls.minuteOptions)
    by (apply list_elem_of_In; cbn; tauto).
  split; [exact Hh |]. split; [exact Hm |].
  destruct (updateStartTimeMinutes_in_range CreateLesson.decimalToNumber 14 45
              MoreExamples.controlledForm Hh Hm) as (_ & _ & _ & ->).
  vm_compute. reflexivity.
Defined.

Lemma formSchema_accepts_controls_witness :
  exists data,
    CreateLesson.formSchema CreateLesson.decimalToNumber MoreExamples.controlledForm
    = Some data
    /\ CreateLesson.startTimeMinutes data = 14 * 60 + 45
    /\ CreateLesson.attendanceWindowMinutes data = 20.
Proof.
  destruct (formSchema_accepts_controls CreateLesson.decimalToNumber unit
              Examples.alwaysOk MoreExamples.controlledForm
              3 "Physics" 4 14 45 90 20 tt)
    as (data & Hparse & _ & _ & _ & Hstart & _ & Hwindow & _).
  - reflexivity.
  - reflexivity.
  - vm_compute. lia.
  - reflexivity.
  - apply elem_of_seqZ. cbn. lia.
  - reflexivity.
  - apply elem_of_seqZ. lia.
  - apply list_elem_of_In. cbn. tauto.
  - reflexivity.
  - apply list_elem_of_In. vm_compute. tauto.
  - reflexivity.
  - apply list_elem_of_In. vm_compute. tauto.
  - discriminate.
  - discriminate.
  - exists data. split; [exact Hparse |]. split; [exact Hstart | exact Hwindow].
Defined.

(** ** What the user sees after a submission *)

Section SubmissionOutcomes.

Variable NetState : Type.
Variable serve : NetState -> Request -> NetState * Outcome Response.

(** X26: On the student lessons page handleMarkAttendance never rejects; after
    a successful response it shows the 'Attendance Marked' toast and closes
    the dialog, and after any failure it shows exactly one destructive 'Error'
    toast and leaves the dialog open. *)
Theorem handleMarkAttendance_outcome userId lesson n :
  let run := StudentLessons.handleMarkAttendance NetState serve userId (Some lesson) in
  outcomeOf run n = Returned tt
  /\ if succeeded (snd (serve n (selfMarkRequest userId (id lesson))))
     then toastsOf (eventsOf run n)
          = [{| title := "Attendance Marked";
                description := "Your attendance has been recorded successfully.";
                variant := VDefault |}]
          /\ stateUpdatesOf (eventsOf run n)
             = [("attendanceDialogOpen", JBool false)]
     else (exists msg,
              toastsOf (eventsOf run n)
              = [{| title := "Error"; description := msg; variant := VDestructive |}])
          /\ stateUpdatesOf (eventsOf run n) = [].
Proof.
  cbv zeta. unfold eventsOf, outcomeOf, StudentLessons.handleMarkAttendance,
    StudentLessons.markAttendance_mutationFn, StudentLessons.markAttendance_onSuccess,
    StudentLessons.markAttendance_onError, selfMarkRequest.
  run_handler.
  destruct (serve n _) as [n' [[[|] [j|m]]|msg]]; cbn;
    (split; [reflexivity |]); split; try reflexivity; eexists; reflexivity.
Qed.

(** X27: For an accepted form, submitting navigates to /teacher/lessons with
    the 'Lesson created' toast exactly when the POST succeeds; on any failure
    it stays on the page and shows the 'Error creating lesson' toast, and the
    handler never rejects. *)
Theorem createLesson_outcome stringToNumber values data n :
  CreateLesson.formSchema stringToNumber values = Some data ->
  let run := CreateLesson.handleSubmit stringToNumber NetState serve values in
  outcomeOf run n = Returned tt
  /\ if succeeded
          (snd (serve n {| method := "POST"; url := "/api/lessons";
                           body := CreateLesson.lessonJson data |}))
     then CreateLessonControls.navigationsOf (eventsOf run n) = ["/teacher/lessons"]
          /\ map title (toastsOf (eventsOf run n)) = ["Lesson created"]
     else CreateLessonControls.navigationsOf (eventsOf run n) = []
          /\ map title (toastsOf (eventsOf run n)) = ["Error creating lesson"].
Proof.
  intros Hparse. cbv zeta.
  unfold eventsOf, outcomeOf, CreateLesson.handleSubmit. rewrite Hparse.
  unfold CreateLesson.onSubmit, CreateLesson.createLesson_mutationFn,
    CreateLesson.createLesson_onSuccess, CreateLesson.createLesson_onError.
  run_handler.
  destruct (serve n _) as [n' [[[|] [j|m]]|msg]]; cbn;
    (split; [reflexivity |]); split; reflexivity.
Qed.

Lemma strOrDefault_text msg fallback :
  fallback <> "" -> Js.strOrDefault (Some msg) fallback <> "".
Proof.
  intros Hfb. unfold Js.strOrDefault.
  destruct (String.eqb_spec msg ""); [exact Hfb | assumption].
Qed.

Lemma toastsHaveText_snoc t evs :
  BulkAttendanceView.toastsHaveText t ->
  BulkAttendanceView.toastsHaveText evs ->
  BulkAttendanceView.toastsHaveText (t ++ evs).
Proof.
  unfold BulkAttendanceView.toastsHaveText, toastsOf. rewrite omap_app.
  intros Ht Hevs. apply Forall_app. split; assumption.
Qed.

Lemma saveStudent_toasts st k s f w :
  BulkAttendanceView.toastsHaveText (trace w) ->
  BulkAttendanceView.toastsHaveText
    (trace (snd (saveStudent NetState serve st k s f w))).
Proof.
  intros Hw.
  unfold saveStudent, markAttendanceMutation_mutateAsync,
    markAttendance_mutationFn, markAttendance_onError, markAttendance_onSuccess.
  destruct (Js.truthy (lessonId st)); cbn [negb]; run_handler.
  - destruct (serve (net w) _) as [n' [[[|] [j|m]]|msg]]; cbn;
      rewrite <- !(assoc_L (++)); apply toastsHaveText_snoc; try exact Hw;
      unfold BulkAttendanceView.toastsHaveText; cbn;
      repeat constructor; cbn; apply strOrDefault_text; discriminate.
  - rewrite <- !(assoc_L (++)). apply toastsHaveText_snoc; [exact Hw |].
    unfold BulkAttendanceView.toastsHaveText. cbn. repeat constructor.
    cbn. discriminate.
Qed.

Lemma saveLoop_toasts st ids : forall s f w,
  BulkAttendanceView.toastsHaveText (trace w) ->
  BulkAttendanceView.toastsHaveText
    (trace (snd (saveLoop NetState serve st ids s f w))).
Proof.
  induction ids as [| k ids IH]; intros s f w Hw; [exact Hw |].
  cbn [saveLoop]. unfold bind at 1.
  pose proof (saveStudent_toasts st k s f w Hw) as Hstep.
  destruct (saveStudent_run NetState serve st k s f w)
    as (evs & success & w1 & Hrun & _).
  rewrite Hrun in Hstep |- *. cbn [snd] in Hstep. apply IH. exact Hstep.
Qed.

(** X28: Every toast shown during saveAllAttendance has a non-empty
    description (a failed request always falls back to 'Failed to mark
    attendance'), and at least one toast is shown. *)
Theorem saveAllAttendance_toasts_have_text st n :
  BulkAttendanceView.toastsHaveText
    (eventsOf (saveAllAttendance NetState serve st) n)
  /\ toastsOf (eventsOf (saveAllAttendance NetState serve st) n) <> [].
Proof.
  unfold eventsOf, saveAllAttendance. run_handler.
  pose proof (saveLoop_toasts st (objectKeys (attendanceData st)) 0 0
                {| net := n; trace := [EvSetState "isSaving" (JBool true)] |}) as Hloop.
  destruct (saveLoop_run NetState serve st (objectKeys (attendanceData st)) 0 0
              {| net := n; trace := [EvSetState "isSaving" (JBool true)] |})
    as (evs & succ & w1 & Hrun & _).
  rewrite Hrun in Hloop |- *. cbn in Hloop |- *.
  rewrite <- !(assoc_L (++)).
  split.
  - apply toastsHaveText_snoc.
    + apply Hloop. unfold BulkAttendanceView.toastsHaveText. cbn. constructor.
    + unfold BulkAttendanceView.toastsHaveText. cbn. repeat constructor.
      cbn. discriminate.
  - unfold toastsOf. rewrite omap_app. cbn.
    intros Hnil. apply app_eq_nil in Hnil as [_ Hnil]. discriminate Hnil.
Qed.

End SubmissionOutcomes.

Lemma createLesson_outcome_witness :
  CreateLesson.formSchema CreateLesson.decimalToNumber (Examples.filledForm 1)
  <> None
  /\ CreateLessonControls.navigationsOf
       (eventsOf
          (CreateLesson.handleSubmit CreateLesson.decimalToNumber unit
             Examples.alwaysOk (Examples.filledForm 1)) tt)
     = ["/teacher/lessons"].
Proof.
  split; [vm_compute; discriminate |].
  destruct (createLesson_outcome unit Examples.alwaysOk
              CreateLesson.decimalToNumber (Examples.filledForm 1) _ tt eq_refl)
    as [_ Hnav].
  cbn in Hnav. exact (proj1 Hnav).
Defined.

(** ** Student dashboard: a row after the window has closed *)

(** X29: On the student dashboard, for an unmarked regular lesson of today
    whose attendance window has closed but which has not ended, the row shows
    'Starts at <start time>' and a click does not open the dialog. *)
Theorem rowStatus_after_window now attendanceRecords userId lesson :
  hasMarkedAttendance attendanceRecords userId (Some lesson) = false ->
  instantCreation now lesson = None ->
  dayOfWeek lesson = getDay now ->
  startTimeMinutes lesson + Js.orDefault (attendanceWindowMinutes lesson) 30
    < currentMinutesOf now
    <= startTimeMinutes lesson + durationMinutes lesson ->
  rowStatus now attendanceRecords userId lesson
  = StartsAt (formatTimeFromMinutes (startTimeMinutes lesson))
  /\ rowSelectsLesson now attendanceRecords userId lesson = false.
Proof.
  intros Hmarked Hreg Hday Hm.
  assert (Hopen : isAttendanceWindowOpen now (Some lesson) = false).
  { destruct (isAttendanceWindowOpen now (Some lesson)) eqn:Ho; [| reflexivity].
    apply (isAttendanceWindowOpen_regular_branch now lesson Hreg) in Ho. lia. }
  assert (Hpassed : StudentDashboard.hasTimePassed now
                      (startTimeMinutes lesson + durationMinutes lesson) = false).
  { unfold StudentDashboard.hasTimePassed. cbv zeta. apply Z.ltb_ge. lia. }
  unfold rowStatus, rowSelectsLesson. rewrite Hmarked, Hopen, Hpassed.
  split; reflexivity.
Qed.

Lemma rowStatus_after_window_witness :
  hasMarkedAttendance [] (Some 42) (Some (Examples.mondayLesson (Some 10) None))
  = false
  /\ rowStatus (Examples.at_time Examples.monday 10 20) [] (Some 42)
       (Examples.mondayLesson (Some 10) None)
     = StartsAt "10:00 AM".
Proof.
  split; [reflexivity |].
  destruct (rowStatus_after_window (Examples.at_time Examples.monday 10 20) []
              (Some 42) (Examples.mondayLesson (Some 10) None))
    as [Hrow _];
    [reflexivity | reflexivity | reflexivity
    | vm_compute; split; [reflexivity | discriminate] |].
  rewrite Hrow. vm_compute. reflexivity.
Defined.
